(** * litestar.logging.config: a shallow embedding and its properties

    The development follows [src/litestar/logging/config.py].  Python
    objects become Rocq data: dataclasses are records, a [dict] that gets
    serialised is an insertion-ordered association list, the structlog
    event dictionary is a [gmap], and a call that may raise returns a
    [Completion].  What the module asks of the interpreter it runs in
    (installed packages, version, terminal attachment) is gathered in the
    record [Env].  External callables are data or parameters: a logger is
    its [exception] method, [encode_json] and the copy [dataclasses.asdict]
    makes of an object are parameters of [configure], and [configure] is
    followed up to its call of [dictConfig]. *)

From Stdlib Require Import ZArith List String Ascii Bool Lia DecimalString.
From stdpp Require Import base option list gmap strings.
Import ListNotations.
Local Open Scope string_scope.
Local Open Scope Z_scope.

(** ** Python primitives *)

Module Py.

(** The exceptions the module raises itself, or lets through. *)
Inductive PyException : Type :=
| ImproperlyConfiguredException (detail : string)
| MissingDependencyException (package : string)
| IndexError (detail : string)
| KeyError (key : string)
| SerializationException (detail : string)
| OtherException (name : string).

(** Outcome of a call: it returns a value or raises. *)
Inductive Completion (A : Type) : Type :=
| Normal (a : A)
| Raised (e : PyException).
Arguments Normal {A} a.
Arguments Raised {A} e.

Definition bind {A B} (c : Completion A) (k : A -> Completion B) : Completion B :=
  match c with
  | Normal a => k a
  | Raised e => Raised e
  end.

Definition returns {A} (c : Completion A) : bool :=
  match c with Normal _ => true | Raised _ => false end.

(** [o is None] *)
Definition is_none {A} (o : option A) : bool :=
  match o with None => true | Some _ => false end.

(** [l.pop(0)]: the first element and the list left behind. *)
Definition list_pop0 {A} (l : list A) : Completion (A * list A) :=
  match l with
  | [] => Raised (IndexError "pop from empty list")
  | x :: rest => Normal (x, rest)
  end.

(** [l[start:]] with Python's treatment of negative and out-of-range
    bounds: a negative [start] counts from the end, and both are clamped
    to the list. *)
Definition slice_from {A} (start : Z) (l : list A) : list A :=
  let len := Z.of_nat (length l) in
  let lo := if start <? 0 then Z.max 0 (start + len) else Z.min start len in
  skipn (Z.to_nat lo) l.

(** [sep.join(l)] *)
Definition join (sep : string) (l : list string) : string := String.concat sep l.

(** The line feed character. *)
Definition LF : string := String (ascii_of_nat 10) EmptyString.

(** [needle in hay] on strings. *)
Fixpoint contains (needle hay : string) : bool :=
  String.prefix needle hay ||
  match hay with
  | EmptyString => false
  | String _ hay' => contains needle hay'
  end.

(** [c in s] for one character. *)
Fixpoint has_char (c : ascii) (s : string) : bool :=
  match s with
  | EmptyString => false
  | String a s' => Ascii.eqb a c || has_char c s'
  end.

Definition squote : ascii := ascii_of_nat 39.
Definition dquote : ascii := ascii_of_nat 34.
Definition backslash : ascii := ascii_of_nat 92.

(** Every character an escape sequence of [repr] is written with. *)
Definition escape_alphabet : string :=
  String backslash (String squote (String dquote "tnrx0123456789abcdef")).

Definition hexdigit (n : nat) : ascii :=
  match String.get n "0123456789abcdef" with
  | Some a => a
  | None => "0"%char
  end.

(** How [repr] writes one byte of a [bytes] object, given the quote
    character chosen for the literal. *)
Definition repr_byte (quote : ascii) (c : ascii) : string :=
  let n := nat_of_ascii c in
  if Ascii.eqb c quote || Ascii.eqb c backslash then String backslash (String c EmptyString)
  else if Nat.eqb n 9 then String backslash "t"
  else if Nat.eqb n 10 then String backslash "n"
  else if Nat.eqb n 13 then String backslash "r"
  else if Nat.ltb n 32 || Nat.leb 127 n then
    String backslash (String "x" (String (hexdigit (Nat.div n 16))
                                   (String (hexdigit (Nat.modulo n 16)) EmptyString)))
  else String c EmptyString.

Fixpoint repr_bytes_body (quote : ascii) (b : string) : string :=
  match b with
  | EmptyString => EmptyString
  | String c b' => repr_byte quote c +:+ repr_bytes_body quote b'
  end.

(** [str(b)] for a [bytes] object [b]: its literal, [b'...'], in double
    quotes when the content has a single quote and no double quote. *)
Definition str_of_bytes (b : string) : string :=
  let quote := if has_char squote b && negb (has_char dquote b) then dquote else squote in
  String "b" (String quote (repr_bytes_body quote b +:+ String quote EmptyString)).

(** *** Dictionaries

    A [dict] keeps its keys in insertion order, and the order shows in
    its serialisation, so it is an association list here.  A key occurs
    once in a Python dictionary; lookups read the first binding and
    removals drop every binding of the key, which is the same thing on
    such lists. *)
Definition dict (V : Type) : Type := list (string * V).

Definition dict_get {V} (k : string) (d : dict V) : option V :=
  match List.find (fun kv => String.eqb (fst kv) k) d with
  | Some kv => Some (snd kv)
  | None => None
  end.

(** [k in d] *)
Definition dict_has {V} (k : string) (d : dict V) : bool :=
  match dict_get k d with Some _ => true | None => false end.

(** [d[k]] *)
Definition dict_getitem {V} (k : string) (d : dict V) : Completion V :=
  match dict_get k d with
  | Some v => Normal v
  | None => Raised (KeyError k)
  end.

(** [d[k] = v]: an existing key keeps its place, a new one goes last. *)
Fixpoint dict_setitem {V} (k : string) (v : V) (d : dict V) : dict V :=
  match d with
  | [] => [(k, v)]
  | (k', v') :: d' =>
      if String.eqb k' k then (k', v) :: d' else (k', v') :: dict_setitem k v d'
  end.

Definition dict_remove {V} (k : string) (d : dict V) : dict V :=
  List.filter (fun kv => negb (String.eqb (fst kv) k)) d.

(** [k in t] for a tuple of strings. *)
Definition tuple_has (k : string) (t : list string) : bool :=
  existsb (String.eqb k) t.

(** [d.pop(k)] without a default: the dictionary left behind. *)
Definition dict_pop {V} (k : string) (d : dict V) : Completion (dict V) :=
  if dict_has k d then Normal (dict_remove k d) else Raised (KeyError k).

End Py.
Import Py.

(** [Completion] is a monad; stdpp's [x ← c; k] sequences calls and lets an
    exception of [c] pass through. *)
#[global] Instance Completion_ret : MRet Completion := @Normal.
#[global] Instance Completion_bind : MBind Completion := fun A B k c => bind c k.

(** ** The placeholder accessor *)

(** [get_logger_placeholder]: what [get_logger] is bound to until a logging
    configuration has been applied.  It is [NoReturn]. *)
Definition get_logger_placeholder {Logger : Type} (_ : option string) : Completion Logger :=
  Raised (ImproperlyConfiguredException
    "cannot call '.get_logger' without passing 'logging_config' to the Litestar constructor first").

(** ** The exception logging handler *)

(** One call [logger.exception(msg, *args, **kwargs)]. *)
Record LogCall : Type := mkLogCall {
  call_msg : string;
  call_args : list string;
  call_kwargs : list (string * string)
}.

(** A logger is external; all the handler uses is its [exception] method,
    which may itself raise. *)
Record Logger : Type := mkLogger {
  exception : LogCall -> Completion unit
}.

(** The connection scope (a typed dictionary with these keys). *)
Record Scope : Type := mkScope {
  scope_type : string;
  scope_path : string
}.

Definition ExceptionLoggingHandler : Type :=
  Logger -> Scope -> list string -> Completion unit.

(** The expression [tb[-traceback_line_limit:]], evaluated once the first
    line has been popped. *)
Definition traceback_tail (traceback_line_limit : Z) (tb : list string) : list string :=
  slice_from (- traceback_line_limit) tb.

(** The handler pops the first line off the caller's list and makes one
    call of [logger.exception]; nothing in it catches an exception. *)
Definition _default_exception_logging_handler_factory
    (is_struct_logger : bool) (traceback_line_limit : Z) : ExceptionLoggingHandler :=
  fun logger scope tb =>
    '(first_line, tb) ← list_pop0 tb;
    if is_struct_logger then
      exception logger
        {| call_msg := "Uncaught Exception";
           call_args := [];
           call_kwargs :=
             [ ("connection_type", scope_type scope);
               ("path", scope_path scope);
               ("traceback", join EmptyString (traceback_tail traceback_line_limit tb)) ] |}
    else
      let stack_trace := first_line +:+ join EmptyString (traceback_tail traceback_line_limit tb) in
      exception logger
        {| call_msg := "exception raised on %s connection to route %s" +:+ LF +:+ LF +:+ "%s";
           call_args := [scope_type scope; scope_path scope; stack_trace];
           call_kwargs := [] |}.

(** ** Structlog objects the module names *)

Inductive Serializer : Type :=
| default_json_serializer
| stdlib_json_serializer.

(** [RichTracebackFormatter(max_frames=.., show_locals=.., width=..)] *)
Record RichTracebackFormatter : Type := mkRichTracebackFormatter {
  max_frames : Z;
  show_locals : bool;
  width : Z
}.

(** A processor of the structlog chain.  [UserProcessor] stands for any
    callable the application supplies itself. *)
Inductive Processor : Type :=
| merge_contextvars
| add_log_level
| format_exc_info
| TimeStamper (fmt : string)
| JSONRenderer (serializer : Serializer)
| ConsoleRenderer (colors : bool) (exception_formatter : RichTracebackFormatter)
| stdlib_add_log_level
| ExtraAdder
| StructlogEventFilter (filter_keys : list string)
| remove_processors_meta
| UserProcessor (name : string).

Inductive LoggerFactory : Type :=
| BytesLoggerFactory
| WriteLoggerFactory
| UserLoggerFactory (name : string).

(** ** Values held by the configuration dictionaries ([Any]) *)

#[local] Set Warnings "-register-all".
Inductive value : Type :=
| VNone
| VBool (b : bool)
| VInt (z : Z)
| VStr (s : string)
| VList (l : list value)
| VDict (d : list (string * value))
| VClass (qualname : string)
| VProcessor (p : Processor)
| VHandler (h : ExceptionLoggingHandler).

Definition is_None (v : value) : bool :=
  match v with VNone => true | _ => false end.

(** ** The runtime environment

    What the module asks of the interpreter it runs in.  A package counts
    as installed when it is found and the names this module imports from it
    can be imported. *)
Record Env : Type := mkEnv {
  has_picologging : bool;
  has_structlog : bool;
  python_ge_3_12 : bool;
  stderr_isatty : bool
}.

(** The two dictionary-configured backends. *)
Inductive LoggingBackend : Type :=
| Standard
| HighPerformance.

(** [from picologging import config, getLogger] *)
Definition import_picologging (env : Env) : Completion unit :=
  if has_picologging env then Normal tt
  else Raised (MissingDependencyException "picologging").

(** ** Default tables *)

(** [default_handlers], as it stands once the module is loaded: on Python
    3.12 and later the queue listener is given its [handlers] entry. *)
Definition default_handlers (env : Env) : dict value :=
  [ ("console",
      VDict [ ("class", VStr "logging.StreamHandler");
              ("level", VStr "DEBUG");
              ("formatter", VStr "standard") ]);
    ("queue_listener",
      VDict ([ ("class", VStr "litestar.logging.standard.QueueListenerHandler");
               ("level", VStr "DEBUG");
               ("formatter", VStr "standard") ]
             ++ (if python_ge_3_12 env then [("handlers", VList [VStr "console"])] else []))) ].

Definition default_picologging_handlers : dict value :=
  [ ("console",
      VDict [ ("class", VStr "picologging.StreamHandler");
              ("level", VStr "DEBUG");
              ("formatter", VStr "standard") ]);
    ("queue_listener",
      VDict [ ("class", VStr "litestar.logging.picologging.QueueListenerHandler");
              ("level", VStr "DEBUG");
              ("formatter", VStr "standard") ]) ].

Definition _get_default_handlers (env : Env) : dict value :=
  if has_picologging env then default_picologging_handlers else default_handlers env.

(** [log_exceptions: Literal["always", "debug", "never"]] *)
Inductive LogExceptions : Type :=
| always
| debug
| never.

Definition LogExceptions_str (p : LogExceptions) : string :=
  match p with
  | always => "always"
  | debug => "debug"
  | never => "never"
  end.

Definition is_never (p : LogExceptions) : bool :=
  match p with never => true | _ => false end.

(** ** JSON encoding of the handlers

    [encode_json] belongs to [litestar.serialization]; [configure] only
    searches its output.  The properties of [configure] are stated for an
    arbitrary encoder; [Json.encode] is the instance used to run it. *)

Module Json.

Definition escape_char (c : ascii) : string :=
  let n := nat_of_ascii c in
  if Ascii.eqb c dquote || Ascii.eqb c backslash then String backslash (String c EmptyString)
  else if Nat.eqb n 8 then String backslash "b"
  else if Nat.eqb n 9 then String backslash "t"
  else if Nat.eqb n 10 then String backslash "n"
  else if Nat.eqb n 12 then String backslash "f"
  else if Nat.eqb n 13 then String backslash "r"
  else if Nat.ltb n 32 then
    String backslash ("u00" +:+ String (hexdigit (Nat.div n 16))
                                 (String (hexdigit (Nat.modulo n 16)) EmptyString))
  else String c EmptyString.

Fixpoint escape (s : string) : string :=
  match s with
  | EmptyString => EmptyString
  | String c s' => escape_char c +:+ escape s'
  end.

Definition quoted (s : string) : string :=
  String dquote (escape s +:+ String dquote EmptyString).

Definition of_Z (z : Z) : string := DecimalString.NilZero.string_of_int (Z.to_int z).

(** Modelled from the spec: the encoder [encode_json] of
    [litestar.serialization], which is not part of this module.  The spec
    treats it as the injected capability [encode(value) -> bytes], a JSON
    encoder; this is the compact encoding of the JSON data types, and an
    object that is not one of them is refused. *)
Fixpoint encode (v : value) : Completion string :=
  match v with
  | VNone => Normal "null"
  | VBool true => Normal "true"
  | VBool false => Normal "false"
  | VInt z => Normal (of_Z z)
  | VStr s => Normal (quoted s)
  | VList l =>
      let fix items (l : list value) : Completion (list string) :=
        match l with
        | [] => Normal []
        | x :: l' =>
            match encode x, items l' with
            | Normal s, Normal ss => Normal (s :: ss)
            | Raised e, _ => Raised e
            | _, Raised e => Raised e
            end
        end in
      match items l with
      | Normal ss => Normal ("[" +:+ join "," ss +:+ "]")
      | Raised e => Raised e
      end
  | VDict d =>
      let fix items (d : list (string * value)) : Completion (list string) :=
        match d with
        | [] => Normal []
        | (k, x) :: d' =>
            match encode x, items d' with
            | Normal s, Normal ss => Normal ((quoted k +:+ ":" +:+ s) :: ss)
            | Raised e, _ => Raised e
            | _, Raised e => Raised e
            end
        end in
      match items d with
      | Normal ss => Normal ("{" +:+ join "," ss +:+ "}")
      | Raised e => Raised e
      end
  | VClass _ | VProcessor _ | VHandler _ =>
      Raised (SerializationException "Unsupported type")
  end.

End Json.

(** ** [dataclasses.asdict]

    [_asdict_inner] rebuilds every list and dictionary around what it makes
    of their elements, in order, and returns [None], booleans, integers,
    strings and classes as they are.  Any other object is handed to
    [copy.deepcopy], or, when it is a dataclass instance, turned into the
    dictionary of its fields.  What comes out for such an object, a copy,
    a dictionary or an exception, is not decided by this module: it is the
    parameter [copy_object]. *)
Section Asdict.

Variable copy_object : value -> Completion value.

Fixpoint _asdict_inner (v : value) : Completion value :=
  match v with
  | VNone | VBool _ | VInt _ | VStr _ | VClass _ => Normal v
  | VList l =>
      let fix items (l : list value) : Completion (list value) :=
        match l with
        | [] => Normal []
        | x :: l' =>
            match _asdict_inner x with
            | Raised e => Raised e
            | Normal y =>
                match items l' with
                | Raised e => Raised e
                | Normal ys => Normal (y :: ys)
                end
            end
        end in
      match items l with
      | Normal l' => Normal (VList l')
      | Raised e => Raised e
      end
  | VDict d =>
      let fix items (d : list (string * value)) : Completion (list (string * value)) :=
        match d with
        | [] => Normal []
        | (k, x) :: d' =>
            match _asdict_inner x with
            | Raised e => Raised e
            | Normal y =>
                match items d' with
                | Raised e => Raised e
                | Normal ys => Normal ((k, y) :: ys)
                end
            end
        end in
      match items d with
      | Normal d' => Normal (VDict d')
      | Raised e => Raised e
      end
  | VProcessor _ | VHandler _ => copy_object v
  end.

(** [_asdict_inner] on a dictionary, as a dictionary: the loop over its
    items. *)
Fixpoint asdict_items (d : dict value) : Completion (dict value) :=
  match d with
  | [] => Normal []
  | (k, x) :: d' =>
      match _asdict_inner x with
      | Raised e => Raised e
      | Normal y =>
          match asdict_items d' with
          | Raised e => Raised e
          | Normal ys => Normal ((k, y) :: ys)
          end
      end
  end.

End Asdict.

(** Data without objects: nothing in it is left to [copy_object]. *)
Fixpoint plain_data (v : value) : bool :=
  match v with
  | VNone | VBool _ | VInt _ | VStr _ | VClass _ => true
  | VList l => forallb plain_data l
  | VDict d => forallb (fun kv => plain_data (snd kv)) d
  | VProcessor _ | VHandler _ => false
  end.

(** ** LoggingConfig: configuration of the dictionary-configured backends *)

Module LoggingConfig.

Record t : Type := mk {
  version : Z;
  incremental : bool;
  disable_existing_loggers : bool;
  filters : option (dict value);
  propagate : bool;
  formatters : dict value;
  handlers : dict value;
  loggers : dict value;
  root : dict value;
  configure_root_logger : bool;
  log_exceptions : LogExceptions;
  traceback_line_limit : Z;
  exception_logging_handler : option ExceptionLoggingHandler
}.

(** The keyword arguments of the constructor; [None] is an argument left
    out, which then takes the field's default. *)
Record args : Type := mk_args {
  arg_version : option Z;
  arg_incremental : option bool;
  arg_disable_existing_loggers : option bool;
  arg_filters : option (dict value);
  arg_propagate : option bool;
  arg_formatters : option (dict value);
  arg_handlers : option (dict value);
  arg_loggers : option (dict value);
  arg_root : option (dict value);
  arg_configure_root_logger : option bool;
  arg_log_exceptions : option LogExceptions;
  arg_traceback_line_limit : option Z;
  arg_exception_logging_handler : option ExceptionLoggingHandler
}.

(** [LoggingConfig()] *)
Definition no_args : args :=
  mk_args None None None None None None None None None None None None None.

Definition default_formatters : dict value :=
  [ ("standard",
      VDict [ ("format",
               VStr "%(levelname)s - %(asctime)s - %(name)s - %(module)s - %(message)s") ]) ].

Definition default_loggers : dict value :=
  [ ("litestar",
      VDict [ ("level", VStr "INFO");
              ("handlers", VList [VStr "queue_listener"]);
              ("propagate", VBool false) ]) ].

Definition default_root : dict value :=
  [ ("handlers", VList [VStr "queue_listener"]);
    ("level", VStr "INFO") ].

(** The generated [__init__]: every field from its argument or its
    default. *)
Definition __init__ (env : Env) (a : args) : t :=
  {| version := default 1 (arg_version a);
     incremental := default false (arg_incremental a);
     disable_existing_loggers := default false (arg_disable_existing_loggers a);
     filters := arg_filters a;
     propagate := default true (arg_propagate a);
     formatters := default default_formatters (arg_formatters a);
     handlers := default (_get_default_handlers env) (arg_handlers a);
     loggers := default default_loggers (arg_loggers a);
     root := default default_root (arg_root a);
     configure_root_logger := default true (arg_configure_root_logger a);
     log_exceptions := default debug (arg_log_exceptions a);
     traceback_line_limit := default 20 (arg_traceback_line_limit a);
     exception_logging_handler := arg_exception_logging_handler a |}.

Definition __post_init__ (env : Env) (self : t) : Completion t :=
  handlers' ←
    (if negb (dict_has "queue_listener" (handlers self)) then
       entry ← dict_getitem "queue_listener" (_get_default_handlers env);
       Normal (dict_setitem "queue_listener" entry (handlers self))
     else Normal (handlers self));
  let loggers' :=
    if negb (dict_has "litestar" (loggers self)) then
      dict_setitem "litestar"
        (VDict [ ("level", VStr "INFO");
                 ("handlers", VList [VStr "queue_listener"]);
                 ("propagate", VBool false) ])
        (loggers self)
    else loggers self in
  let exception_logging_handler' :=
    if negb (is_never (log_exceptions self)) && is_none (exception_logging_handler self)
    then Some (_default_exception_logging_handler_factory false (traceback_line_limit self))
    else exception_logging_handler self in
  Normal {| version := version self;
            incremental := incremental self;
            disable_existing_loggers := disable_existing_loggers self;
            filters := filters self;
            propagate := propagate self;
            formatters := formatters self;
            handlers := handlers';
            loggers := loggers';
            root := root self;
            configure_root_logger := configure_root_logger self;
            log_exceptions := log_exceptions self;
            traceback_line_limit := traceback_line_limit self;
            exception_logging_handler := exception_logging_handler' |}.

(** [LoggingConfig(...)]: the constructor call. *)
Definition new (env : Env) (a : args) : Completion t :=
  __post_init__ env (__init__ env a).

Section Configure.

Variable encode_json : value -> Completion string.
Variable copy_object : value -> Completion value.

(** [dataclasses.asdict(self)]: the fields in declaration order, each one
    through [_asdict_inner]; the first object that cannot be copied ends
    it with that exception. *)
Definition asdict (self : t) : Completion (dict value) :=
  filters' ←
    match filters self with
    | Some d => d' ← asdict_items copy_object d; Normal (VDict d')
    | None => Normal VNone
    end;
  formatters' ← asdict_items copy_object (formatters self);
  handlers' ← asdict_items copy_object (handlers self);
  loggers' ← asdict_items copy_object (loggers self);
  root' ← asdict_items copy_object (root self);
  exception_logging_handler' ←
    match exception_logging_handler self with
    | Some h => copy_object (VHandler h)
    | None => Normal VNone
    end;
  Normal
    [ ("version", VInt (version self));
      ("incremental", VBool (incremental self));
      ("disable_existing_loggers", VBool (disable_existing_loggers self));
      ("filters", filters');
      ("propagate", VBool (propagate self));
      ("formatters", VDict formatters');
      ("handlers", VDict handlers');
      ("loggers", VDict loggers');
      ("root", VDict root');
      ("configure_root_logger", VBool (configure_root_logger self));
      ("log_exceptions", VStr (LogExceptions_str (log_exceptions self)));
      ("traceback_line_limit", VInt (traceback_line_limit self));
      ("exception_logging_handler", exception_logging_handler') ].

(** [configure]: up to the call [config.dictConfig(values)].  The result
    names the backend whose [dictConfig] is called (and whose
    [getLogger] is returned) and the mapping passed to it. *)
Definition configure (env : Env) (self : t) : Completion (LoggingBackend * dict value) :=
  encoded ← encode_json (VDict (handlers self));
  '(backend, values) ←
    (if contains "picologging" (str_of_bytes encoded) then
       _ ← import_picologging env;
       fields ← asdict self;
       Normal (HighPerformance,
               List.filter
                 (fun kv => negb (is_None (snd kv)) &&
                            negb (tuple_has (fst kv) ["incremental"; "configure_root_logger"]))
                 fields)
     else
       fields ← asdict self;
       Normal (Standard,
               List.filter
                 (fun kv => negb (is_None (snd kv)) &&
                            negb (tuple_has (fst kv) ["configure_root_logger"]))
                 fields));
  values ← (if negb (configure_root_logger self) then dict_pop "root" values
            else Normal values);
  Normal (backend, values).

End Configure.

End LoggingConfig.

(** ** The structlog event filter *)

(** [StructlogEventFilter(filter_keys).__call__(_, __, event_dict)]: each key
    is popped with a default, so a key that is not there is passed over. *)
Definition StructlogEventFilter_call {WrappedLogger : Type} (filter_keys : list string)
    (_ : WrappedLogger) (__ : string) (event_dict : gmap string value) : gmap string value :=
  foldl (fun event_dict key => delete key event_dict) event_dict filter_keys.

(** ** Processor pipelines *)

Definition default_structlog_processors (env : Env) (as_json : bool) : list Processor :=
  if has_structlog env then
    if as_json then
      [ merge_contextvars;
        add_log_level;
        format_exc_info;
        TimeStamper "iso";
        JSONRenderer default_json_serializer ]
    else
      [ merge_contextvars;
        add_log_level;
        TimeStamper "iso";
        ConsoleRenderer true (mkRichTracebackFormatter 1 false 80) ]
  else [].

Definition default_structlog_standard_lib_processors (env : Env) (as_json : bool)
    : list Processor :=
  if has_structlog env then
    if as_json then
      [ TimeStamper "iso";
        stdlib_add_log_level;
        ExtraAdder;
        StructlogEventFilter ["color_message"];
        remove_processors_meta;
        JSONRenderer stdlib_json_serializer ]
    else
      [ TimeStamper "iso";
        stdlib_add_log_level;
        ExtraAdder;
        StructlogEventFilter ["color_message"];
        remove_processors_meta;
        ConsoleRenderer true (mkRichTracebackFormatter 1 false 80) ]
  else [].

Definition default_logger_factory (env : Env) (as_json : bool) : option LoggerFactory :=
  if has_structlog env then
    if as_json then Some BytesLoggerFactory else Some WriteLoggerFactory
  else None.

Definition is_json_renderer (p : Processor) : bool :=
  match p with JSONRenderer _ => true | _ => false end.

Definition is_console_renderer (p : Processor) : bool :=
  match p with ConsoleRenderer _ _ => true | _ => false end.

(** ** StructLoggingConfig: configuration of structlog *)

Module StructLoggingConfig.

Record t : Type := mk {
  processors : option (list Processor);
  standard_lib_logging_config : option LoggingConfig.t;
  wrapper_class : option string;
  context_class : option (dict value);
  logger_factory : option LoggerFactory;
  cache_logger_on_first_use : bool;
  log_exceptions : LogExceptions;
  traceback_line_limit : Z;
  exception_logging_handler : option ExceptionLoggingHandler;
  pretty_print_tty : bool
}.

(** The formatters given to the wrapped [LoggingConfig] when structlog is
    there. *)
Definition bridge_formatters (env : Env) (as_json : bool) : dict value :=
  [ ("standard",
      VDict [ ("()", VClass "structlog.stdlib.ProcessorFormatter");
              ("processors",
               VList (List.map VProcessor
                        (default_structlog_standard_lib_processors env as_json))) ]) ].

Definition __post_init__ (env : Env) (self : t) : Completion t :=
  let processors' :=
    if is_none (processors self) then
      Some (default_structlog_processors env
              (negb (stderr_isatty env) && pretty_print_tty self))
    else processors self in
  let logger_factory' :=
    if is_none (logger_factory self) then
      default_logger_factory env (negb (stderr_isatty env) && pretty_print_tty self)
    else logger_factory self in
  let exception_logging_handler' :=
    if negb (is_never (log_exceptions self)) && is_none (exception_logging_handler self)
    then Some (_default_exception_logging_handler_factory true (traceback_line_limit self))
    else exception_logging_handler self in
  standard_lib_logging_config' ←
    (if has_structlog env then
       if is_none (standard_lib_logging_config self) then
         config ← LoggingConfig.new env
                    (LoggingConfig.mk_args None None None None None
                       (Some (bridge_formatters env
                                (negb (stderr_isatty env) && pretty_print_tty self)))
                       None None None None None None None);
         Normal (Some config)
       else Normal (standard_lib_logging_config self)
     else
       config ← LoggingConfig.new env LoggingConfig.no_args;
       Normal (Some config));
  Normal {| processors := processors';
            standard_lib_logging_config := standard_lib_logging_config';
            wrapper_class := wrapper_class self;
            context_class := context_class self;
            logger_factory := logger_factory';
            cache_logger_on_first_use := cache_logger_on_first_use self;
            log_exceptions := log_exceptions self;
            traceback_line_limit := traceback_line_limit self;
            exception_logging_handler := exception_logging_handler';
            pretty_print_tty := pretty_print_tty self |}.

Section Configure.

Variable copy_object : value -> Completion value.
Variable copy_factory : LoggerFactory -> Completion value.

(** [dataclasses.asdict(self)]: every field in declaration order through
    [_asdict_inner], the ones [configure] drops afterwards included.  The
    wrapped [LoggingConfig] is a dataclass too and becomes its own
    dictionary; the logger factory is an object, and what its copy gives is
    the parameter [copy_factory]. *)
Definition asdict (self : t) : Completion (dict value) :=
  processors' ←
    match processors self with
    | Some pipeline => _asdict_inner copy_object (VList (List.map VProcessor pipeline))
    | None => Normal VNone
    end;
  standard_lib_logging_config' ←
    match standard_lib_logging_config self with
    | Some config => d ← LoggingConfig.asdict copy_object config; Normal (VDict d)
    | None => Normal VNone
    end;
  context_class' ←
    match context_class self with
    | Some d => d' ← asdict_items copy_object d; Normal (VDict d')
    | None => Normal VNone
    end;
  logger_factory' ←
    match logger_factory self with
    | Some factory => copy_factory factory
    | None => Normal VNone
    end;
  exception_logging_handler' ←
    match exception_logging_handler self with
    | Some h => copy_object (VHandler h)
    | None => Normal VNone
    end;
  Normal
    [ ("processors", processors');
      ("standard_lib_logging_config", standard_lib_logging_config');
      ("wrapper_class",
        match wrapper_class self with Some c => VClass c | None => VNone end);
      ("context_class", context_class');
      ("logger_factory", logger_factory');
      ("cache_logger_on_first_use", VBool (cache_logger_on_first_use self));
      ("log_exceptions", VStr (LogExceptions_str (log_exceptions self)));
      ("traceback_line_limit", VInt (traceback_line_limit self));
      ("exception_logging_handler", exception_logging_handler');
      ("pretty_print_tty", VBool (pretty_print_tty self)) ].

(** [import structlog] in [configure], where a failure is turned into a
    [MissingDependencyException]. *)
Definition import_structlog (env : Env) : Completion unit :=
  if has_structlog env then Normal tt
  else Raised (MissingDependencyException "structlog").

(** [configure]: up to the call of [structlog.configure]; the result is
    the keyword arguments passed ([structlog.get_logger] is returned). *)
Definition configure (env : Env) (self : t) : Completion (dict value) :=
  _ ← import_structlog env;
  fields ← asdict self;
  Normal (List.filter
            (fun kv => negb (tuple_has (fst kv)
                               [ "standard_lib_logging_config";
                                 "log_exceptions";
                                 "traceback_line_limit";
                                 "exception_logging_handler";
                                 "pretty_print_tty" ]))
            fields).

End Configure.

End StructLoggingConfig.

(** ** Sample inputs *)

Definition quiet_logger : Logger := {| exception := fun _ => Normal tt |}.

Definition broken_logger : Logger :=
  {| exception := fun _ => Raised (OtherException "OSError") |}.

Definition http_scope : Scope := {| scope_type := "http"; scope_path := "/items" |}.

(** A traceback of 25 lines, ["frame 0\n"] to ["frame 24\n"]. *)
Definition traceback25 : list string :=
  List.map (fun i => "frame " +:+ Json.of_Z (Z.of_nat i) +:+ LF) (seq 0 25).

(** Objects that all copy, each to an equal object. *)
Definition copy_equal : value -> Completion value := fun v => Normal v.

(** Objects that cannot be copied: [copy.deepcopy] raises [TypeError]. *)
Definition copy_refused : value -> Completion value :=
  fun _ => Raised (OtherException "TypeError").

(** A handler the application supplies itself. *)
Definition custom_handler : ExceptionLoggingHandler := fun _ _ _ => Normal tt.

(** Python 3.12, no optional package, output to a terminal. *)
Definition bare_env : Env :=
  {| has_picologging := false; has_structlog := false;
     python_ge_3_12 := true; stderr_isatty := true |}.

(** The same with picologging and structlog installed. *)
Definition full_env : Env :=
  {| has_picologging := true; has_structlog := true;
     python_ge_3_12 := true; stderr_isatty := true |}.

(** [LoggingConfig(log_exceptions="never", exception_logging_handler=custom_handler)] *)
Definition never_with_handler_args : LoggingConfig.args :=
  LoggingConfig.mk_args None None None None None None None None None None
    (Some never) None (Some custom_handler).

(** [LoggingConfig(log_exceptions="never")] *)
Definition never_args : LoggingConfig.args :=
  LoggingConfig.mk_args None None None None None None None None None None
    (Some never) None None.

(** [LoggingConfig(incremental=True)] *)
Definition incremental_args : LoggingConfig.args :=
  LoggingConfig.mk_args None (Some true) None None None None None None None None
    None None None.

(** Handlers of the standard library only; the word picologging occurs in
    a format string. *)
Definition stdlib_handlers_with_word : dict value :=
  [ ("console",
      VDict [ ("class", VStr "logging.StreamHandler");
              ("level", VStr "DEBUG");
              ("formatter", VStr "standard");
              ("format", VStr "not picologging: %(message)s") ]);
    ("queue_listener",
      VDict [ ("class", VStr "litestar.logging.standard.QueueListenerHandler");
              ("level", VStr "DEBUG");
              ("formatter", VStr "standard") ]) ].

(** [LoggingConfig(handlers=stdlib_handlers_with_word)] *)
Definition word_in_format_args : LoggingConfig.args :=
  LoggingConfig.mk_args None None None None None None (Some stdlib_handlers_with_word)
    None None None None None None.

(** [LoggingConfig(configure_root_logger=..., root={"level": "WARNING",
    "handlers": ["queue_listener"]})] *)
Definition warning_root : dict value :=
  [ ("level", VStr "WARNING"); ("handlers", VList [VStr "queue_listener"]) ].

Definition warning_root_args (configure_root_logger : bool) : LoggingConfig.args :=
  LoggingConfig.mk_args None None None None None None None None (Some warning_root)
    (Some configure_root_logger) None None None.

(** A [StructLoggingConfig] as [__init__] leaves it, given the wrapped
    configuration, the policy and the handler. *)
Definition struct_init (standard_lib_logging_config : option LoggingConfig.t)
    (log_exceptions : LogExceptions)
    (exception_logging_handler : option ExceptionLoggingHandler) : StructLoggingConfig.t :=
  {| StructLoggingConfig.processors := None;
     StructLoggingConfig.standard_lib_logging_config := standard_lib_logging_config;
     StructLoggingConfig.wrapper_class := None;
     StructLoggingConfig.context_class := None;
     StructLoggingConfig.logger_factory := None;
     StructLoggingConfig.cache_logger_on_first_use := true;
     StructLoggingConfig.log_exceptions := log_exceptions;
     StructLoggingConfig.traceback_line_limit := 20;
     StructLoggingConfig.exception_logging_handler := exception_logging_handler;
     StructLoggingConfig.pretty_print_tty := true |}.

(** ** Shapes used in the statements *)

(** The call the handler makes for the lines it keeps. *)
Definition handler_call (is_struct_logger : bool) (scope : Scope) (first_line : string)
    (kept : list string) : LogCall :=
  if is_struct_logger then
    {| call_msg := "Uncaught Exception";
       call_args := [];
       call_kwargs :=
         [ ("connection_type", scope_type scope);
           ("path", scope_path scope);
           ("traceback", join EmptyString kept) ] |}
  else
    {| call_msg := "exception raised on %s connection to route %s" +:+ LF +:+ LF +:+ "%s";
       call_args := [scope_type scope; scope_path scope; first_line +:+ join EmptyString kept];
       call_kwargs := [] |}.

(** The entries of a dictionary as [Json.encode] writes them, one string
    per binding; this is the loop inside [Json.encode]. *)
Fixpoint encode_entries (d : list (string * value)) : Completion (list string) :=
  match d with
  | [] => Normal []
  | (k, x) :: d' =>
      match Json.encode x, encode_entries d' with
      | Normal s, Normal ss => Normal ((Json.quoted k +:+ ":" +:+ s) :: ss)
      | Raised e, _ => Raised e
      | _, Raised e => Raised e
      end
  end.

(** [LoggingConfig(handlers={"console": {...}})]: one handler of the
    standard library and no queue listener. *)
Definition console_only_args : LoggingConfig.args :=
  LoggingConfig.mk_args None None None None None None
    (Some [ ("console",
              VDict [ ("class", VStr "logging.StreamHandler");
                      ("level", VStr "DEBUG");
                      ("formatter", VStr "standard") ]) ])
    None None None None None None.

(** A configuration whose dictionaries hold plain data only. *)
Definition plain_config (self : LoggingConfig.t) : bool :=
  match LoggingConfig.filters self with
  | Some d => plain_data (VDict d)
  | None => true
  end
  && plain_data (VDict (LoggingConfig.formatters self))
  && plain_data (VDict (LoggingConfig.handlers self))
  && plain_data (VDict (LoggingConfig.loggers self))
  && plain_data (VDict (LoggingConfig.root self)).

(** * Properties *)

(** ** Slices *)

Lemma slice_from_zero {A} (l : list A) : slice_from 0 l = l.
Proof.
  unfold slice_from. cbn [Z.ltb Z.compare].
  rewrite Z.min_l by lia. reflexivity.
Qed.

Lemma slice_from_negative {A} (n : Z) (l : list A) :
  0 < n -> slice_from (- n) l = skipn (length l - Z.to_nat n) l.
Proof.
  intros Hn. unfold slice_from.
  destruct (Z.ltb_spec (- n) 0) as [_ | ?]; [| lia].
  f_equal. lia.
Qed.

Lemma traceback_tail_zero (tb : list string) : traceback_tail 0 tb = tb.
Proof. unfold traceback_tail. apply slice_from_zero. Qed.

Lemma traceback_tail_length (n : Z) (tb : list string) :
  0 < n -> length (traceback_tail n tb) = Nat.min (Z.to_nat n) (length tb).
Proof.
  intros Hn. unfold traceback_tail.
  rewrite slice_from_negative by assumption.
  rewrite length_skipn. lia.
Qed.

Lemma traceback_tail_suffix (n : Z) (tb : list string) :
  traceback_tail n tb `suffix_of` tb.
Proof. unfold traceback_tail, slice_from. apply suffix_drop. Qed.

(** ** The exception logging handler *)

(** What the handler does on a traceback with a first line: one call of
    [logger.exception], whose outcome is the handler's. *)
Lemma handler_struct_call (limit : Z) logger scope first_line rest :
  _default_exception_logging_handler_factory true limit logger scope (first_line :: rest)
  = exception logger
      {| call_msg := "Uncaught Exception";
         call_args := [];
         call_kwargs :=
           [ ("connection_type", scope_type scope);
             ("path", scope_path scope);
             ("traceback", join EmptyString (traceback_tail limit rest)) ] |}.
Proof. reflexivity. Qed.

Lemma handler_dict_call (limit : Z) logger scope first_line rest :
  _default_exception_logging_handler_factory false limit logger scope (first_line :: rest)
  = exception logger
      {| call_msg := "exception raised on %s connection to route %s" +:+ LF +:+ LF +:+ "%s";
         call_args :=
           [ scope_type scope; scope_path scope;
             first_line +:+ join EmptyString (traceback_tail limit rest) ];
         call_kwargs := [] |}.
Proof. reflexivity. Qed.

(** With a limit of at least one, the lines after the first are cut to the
    last [limit] of them. *)
Lemma handler_emits_last_lines (limit : Z) logger scope first_line rest :
  0 < limit ->
  _default_exception_logging_handler_factory true limit logger scope (first_line :: rest)
  = exception logger
      {| call_msg := "Uncaught Exception";
         call_args := [];
         call_kwargs :=
           [ ("connection_type", scope_type scope);
             ("path", scope_path scope);
             ("traceback",
              join EmptyString (skipn (length rest - Z.to_nat limit) rest)) ] |}.
Proof.
  intros Hl. rewrite handler_struct_call. unfold traceback_tail.
  rewrite slice_from_negative by assumption. reflexivity.
Qed.

Lemma handler_tail_bounded (limit : Z) (rest : list string) :
  0 < limit ->
  (length (traceback_tail limit rest) <= Z.to_nat limit)%nat /\
  traceback_tail limit rest = skipn (length rest - Z.to_nat limit) rest.
Proof.
  intros Hl. split.
  - rewrite traceback_tail_length by assumption. lia.
  - unfold traceback_tail. apply slice_from_negative. assumption.
Qed.

Lemma handler_tail_bounded_witness :
  (length (traceback_tail 20 (tl traceback25)) <= 20)%nat /\
  (length (traceback_tail 1 (tl traceback25)) <= 1)%nat.
Proof.
  split.
  - apply (handler_tail_bounded 20 (tl traceback25)). lia.
  - apply (handler_tail_bounded 1 (tl traceback25)). lia.
Defined.

(** C1, at the limit 0 and a traceback of 25 lines: the slice [tb[-0:]] is
    the whole list, so both variants of the handler pass all 24 lines that
    follow the first one to the logger, where the claim has them emit at
    most 0. *)
Theorem handler_limit_zero_emits_every_line :
  length traceback25 = 25%nat /\
  length (traceback_tail 0 (tl traceback25)) = 24%nat /\
  (forall logger scope,
     _default_exception_logging_handler_factory true 0 logger scope traceback25
     = exception logger
         {| call_msg := "Uncaught Exception";
            call_args := [];
            call_kwargs :=
              [ ("connection_type", scope_type scope);
                ("path", scope_path scope);
                ("traceback", join EmptyString (tl traceback25)) ] |}) /\
  (forall logger scope,
     _default_exception_logging_handler_factory false 0 logger scope traceback25
     = exception logger
         {| call_msg := "exception raised on %s connection to route %s" +:+ LF +:+ LF +:+ "%s";
            call_args :=
              [ scope_type scope; scope_path scope;
                hd EmptyString traceback25 +:+ join EmptyString (tl traceback25) ];
            call_kwargs := [] |}).
Proof.
  split; [reflexivity |]. split; [rewrite traceback_tail_zero; reflexivity |].
  split; intros logger scope.
  - change traceback25 with (hd EmptyString traceback25 :: tl traceback25) at 1.
    rewrite handler_struct_call, traceback_tail_zero. reflexivity.
  - change traceback25 with (hd EmptyString traceback25 :: tl traceback25) at 1.
    rewrite handler_dict_call, traceback_tail_zero. reflexivity.
Qed.

(** C2, as stated, fails: on an empty traceback [tb.pop(0)] raises, whatever
    the logger. *)
Lemma handler_raises_on_empty_traceback :
  _default_exception_logging_handler_factory true 20 quiet_logger http_scope []
    = Raised (IndexError "pop from empty list") /\
  _default_exception_logging_handler_factory false 20 quiet_logger http_scope []
    = Raised (IndexError "pop from empty list").
Proof. split; reflexivity. Qed.

(** An exception of the logger is not caught either. *)
Lemma handler_passes_logger_failure (is_struct_logger : bool) :
  _default_exception_logging_handler_factory is_struct_logger 20 broken_logger http_scope
    traceback25 = Raised (OtherException "OSError").
Proof. destruct is_struct_logger; reflexivity. Qed.

(** C2, amended: on a traceback that is not empty, the handler returns
    normally whenever the logger's [exception] method does. *)
Theorem handler_returns_when_logger_returns
    (is_struct_logger : bool) (limit : Z) (logger : Logger) (scope : Scope) (tb : list string) :
  tb <> [] ->
  (forall call, exception logger call = Normal tt) ->
  _default_exception_logging_handler_factory is_struct_logger limit logger scope tb = Normal tt.
Proof.
  intros Htb Hlog. destruct tb as [| first_line rest]; [congruence |].
  destruct is_struct_logger.
  - rewrite handler_struct_call. apply Hlog.
  - rewrite handler_dict_call. apply Hlog.
Qed.

Lemma handler_returns_when_logger_returns_witness :
  _default_exception_logging_handler_factory false 20 quiet_logger http_scope traceback25
  = Normal tt.
Proof.
  apply (handler_returns_when_logger_returns false 20 quiet_logger http_scope traceback25).
  - discriminate.
  - intros call. reflexivity.
Defined.

(** ** The placeholder accessor *)

(** C9: whatever name is asked for, and with none, the placeholder raises
    [ImproperlyConfiguredException] with a message that names the step left
    out; it returns no logger. *)
Theorem get_logger_placeholder_raises (name : option string) :
  (exists detail,
     @get_logger_placeholder Logger name = Raised (ImproperlyConfiguredException detail) /\
     contains "without passing 'logging_config' to the Litestar constructor" detail = true) /\
  returns (@get_logger_placeholder Logger name) = false.
Proof.
  split; [| reflexivity].
  eexists. split; [reflexivity |]. vm_compute. reflexivity.
Qed.

(** ** The structlog event filter *)

Section EventFilter.

Context {WrappedLogger : Type}.
Implicit Types (filter_keys : list string) (event_dict : gmap string value).

Lemma event_filter_lookup filter_keys (logger : WrappedLogger) name event_dict (k : string) :
  StructlogEventFilter_call filter_keys logger name event_dict !! k
  = if bool_decide (k ∈ filter_keys) then None else event_dict !! k.
Proof.
  unfold StructlogEventFilter_call.
  revert event_dict. induction filter_keys as [| key keys IH]; intros event_dict.
  - reflexivity.
  - cbn [foldl]. rewrite IH.
    destruct (decide (k = key)) as [-> | Hne].
    + rewrite lookup_delete_eq.
      rewrite (bool_decide_eq_true_2 (key ∈ key :: keys)) by left.
      case_bool_decide; reflexivity.
    + rewrite lookup_delete_ne by congruence.
      case_bool_decide as Hin.
      * rewrite bool_decide_eq_true_2; [reflexivity | by right].
      * rewrite bool_decide_eq_false_2; [reflexivity |].
        intros [-> | ?]%elem_of_cons; contradiction.
Qed.

Lemma event_filter_idempotent filter_keys (logger : WrappedLogger) name event_dict :
  StructlogEventFilter_call filter_keys logger name
    (StructlogEventFilter_call filter_keys logger name event_dict)
  = StructlogEventFilter_call filter_keys logger name event_dict.
Proof.
  apply map_eq. intros k. rewrite !event_filter_lookup.
  case_bool_decide; reflexivity.
Qed.

(** C8: the filter built with the keys [["color_message"]] removes that
    key and keeps every other entry as it is; on
    [{"color_message": "x", "event": "y"}] it gives [{"event": "y"}]; and
    filtering again changes nothing. *)
Theorem event_filter_color_message (logger : WrappedLogger) (name : string) event_dict :
  (forall k : string,
     StructlogEventFilter_call ["color_message"] logger name event_dict !! k
     = if decide (k = "color_message") then None else event_dict !! k) /\
  StructlogEventFilter_call ["color_message"] logger name
    (<["color_message" := VStr "x"]> (<["event" := VStr "y"]> ∅))
    = <["event" := VStr "y"]> ∅ /\
  StructlogEventFilter_call ["color_message"] logger name
    (StructlogEventFilter_call ["color_message"] logger name event_dict)
  = StructlogEventFilter_call ["color_message"] logger name event_dict.
Proof.
  split; [| split].
  - intros k. rewrite event_filter_lookup.
    destruct (decide (k = "color_message")) as [-> | Hne].
    + rewrite bool_decide_eq_true_2; [reflexivity | left].
    + rewrite bool_decide_eq_false_2; [reflexivity |].
      intros [-> | Hin]%elem_of_cons; [congruence | inversion Hin].
  - cbn [StructlogEventFilter_call foldl].
    rewrite delete_insert_eq. apply delete_id.
    rewrite lookup_insert_ne by discriminate. apply lookup_empty.
  - apply event_filter_idempotent.
Qed.

End EventFilter.

(** ** Processor pipelines *)

(** C7: with structlog there, the native and the bridge pipeline are not
    empty and end in a [JSONRenderer] when [as_json] holds and in a
    [ConsoleRenderer] when it does not; without structlog both builders
    return the empty list, whatever [as_json] is. *)
Theorem default_pipelines_end_in_renderer (env : Env) (as_json : bool) :
  let native := default_structlog_processors env as_json in
  let bridge := default_structlog_standard_lib_processors env as_json in
  if has_structlog env then
    native <> [] /\ bridge <> [] /\
    is_json_renderer <$> last native = Some as_json /\
    is_json_renderer <$> last bridge = Some as_json /\
    is_console_renderer <$> last native = Some (negb as_json) /\
    is_console_renderer <$> last bridge = Some (negb as_json)
  else
    native = [] /\ bridge = [].
Proof.
  unfold default_structlog_processors, default_structlog_standard_lib_processors.
  destruct (has_structlog env).
  - destruct as_json; cbn; repeat split; discriminate.
  - split; reflexivity.
Qed.

(** ** Searching the text of a [bytes] literal

    [configure] looks for a word in [str(encode_json(...))], the literal of
    the encoded bytes, not in the bytes.  For a word made of characters that
    a literal writes as they are, and whose first character occurs in no
    escape sequence, the two searches agree. *)

Section ReprSearch.

Lemma append_nil_l (s : string) : EmptyString +:+ s = s.
Proof. reflexivity. Qed.

Lemma append_cons (a : ascii) (s t : string) : String a s +:+ t = String a (s +:+ t).
Proof. reflexivity. Qed.

Lemma has_char_false_cons (c a : ascii) (s : string) :
  has_char c (String a s) = false -> a <> c /\ has_char c s = false.
Proof.
  cbn. intros [Hac Hs]%orb_false_elim. split; [| exact Hs].
  intros ->. rewrite Ascii.eqb_refl in Hac. discriminate.
Qed.

Lemma has_char_true_ne (c a : ascii) (s : string) :
  has_char a s = true -> has_char c s = false -> a <> c.
Proof. intros Ha Hc ->. congruence. Qed.

Lemma prefix_head_ne (a : ascii) (s : string) (b : ascii) (t : string) :
  b <> a -> String.prefix (String a s) (String b t) = false.
Proof. intros Hne. cbn. destruct (ascii_dec a b); [congruence | reflexivity]. Qed.

Lemma prefix_app_char (q : ascii) (needle hay : string) :
  has_char q needle = false ->
  String.prefix needle (hay +:+ String q EmptyString) = String.prefix needle hay.
Proof.
  revert hay. induction needle as [| a needle IH]; intros hay Hq.
  - destruct hay; reflexivity.
  - apply has_char_false_cons in Hq as [Hne Hq].
    destruct hay as [| b hay]; rewrite ?append_nil_l, ?append_cons; cbn.
    + destruct (ascii_dec a q); [congruence | reflexivity].
    + destruct (ascii_dec a b); [apply IH; exact Hq | reflexivity].
Qed.

Lemma contains_app_char (q : ascii) (needle hay : string) :
  has_char q needle = false ->
  contains needle (hay +:+ String q EmptyString) = contains needle hay.
Proof.
  intros Hq. induction hay as [| b hay IH].
  - rewrite append_nil_l. cbn [contains].
    rewrite <- (prefix_app_char q needle EmptyString Hq).
    rewrite append_nil_l.
    destruct (String.prefix needle (String q EmptyString)) eqn:E; [reflexivity |].
    destruct needle; [discriminate E | reflexivity].
  - rewrite append_cons. cbn [contains]. rewrite IH.
    rewrite <- (prefix_app_char q needle (String b hay) Hq).
    rewrite append_cons. reflexivity.
Qed.

Lemma contains_skip (p0 : ascii) (needle' skipped rest : string) :
  has_char p0 skipped = false ->
  contains (String p0 needle') (skipped +:+ rest) = contains (String p0 needle') rest.
Proof.
  induction skipped as [| x skipped IH]; intros Hp0; [reflexivity |].
  apply has_char_false_cons in Hp0 as [Hne Hp0].
  rewrite append_cons. cbn [contains]. rewrite prefix_head_ne by exact Hne.
  cbn [orb]. apply IH. exact Hp0.
Qed.

Lemma hexdigit_in_alphabet (k : nat) : has_char (hexdigit k) escape_alphabet = true.
Proof. do 17 (destruct k as [| k]; [reflexivity |]). reflexivity. Qed.

Variable quote : ascii.
Hypothesis quote_cases : quote = squote \/ quote = dquote.

Lemma repr_byte_backslash :
  repr_byte quote backslash = String backslash (String backslash EmptyString).
Proof. unfold repr_byte. rewrite Ascii.eqb_refl, orb_true_r. reflexivity. Qed.

(** A byte is written starting with itself or with a backslash. *)
Lemma repr_byte_head (c : ascii) :
  exists e, repr_byte quote c = String c e \/ repr_byte quote c = String backslash e.
Proof.
  unfold repr_byte.
  repeat match goal with
         | |- context [if ?b then _ else _] => destruct b
         end; eexists; ((left; reflexivity) || (right; reflexivity)).
Qed.

(** A byte is written as it is, or as a backslash and characters of the
    escape alphabet. *)
Lemma repr_byte_cases (c h : ascii) :
  has_char h escape_alphabet = false ->
  repr_byte quote c = String c EmptyString \/
  exists e, repr_byte quote c = String backslash e /\ has_char h e = false.
Proof.
  intros Hh.
  assert (Hin : forall a, has_char a escape_alphabet = true -> Ascii.eqb a h = false).
  { intros a Ha. apply Ascii.eqb_neq. exact (has_char_true_ne h a _ Ha Hh). }
  assert (Hhex : forall k, Ascii.eqb (hexdigit k) h = false).
  { intros k. apply Hin, hexdigit_in_alphabet. }
  assert (Hquote : Ascii.eqb quote h = false).
  { apply Hin. destruct quote_cases as [-> | ->]; reflexivity. }
  unfold repr_byte.
  destruct (Ascii.eqb c quote) eqn:Eq.
  { right. apply Ascii.eqb_eq in Eq. subst c. eexists. split; [reflexivity |].
    cbn [has_char]. rewrite Hquote. reflexivity. }
  destruct (Ascii.eqb c backslash) eqn:Eb; cbn [orb].
  { right. apply Ascii.eqb_eq in Eb. subst c. eexists. split; [reflexivity |].
    cbn [has_char]. rewrite (Hin backslash) by reflexivity. reflexivity. }
  repeat match goal with
         | |- context [if ?b then _ else _] => destruct b
         end;
    try (left; reflexivity);
    right; eexists; (split; [reflexivity |]); cbn [has_char]; rewrite ?Hhex;
    first [ rewrite (Hin "t"%char) by reflexivity
          | rewrite (Hin "n"%char) by reflexivity
          | rewrite (Hin "r"%char) by reflexivity
          | rewrite (Hin "x"%char) by reflexivity ];
    reflexivity.
Qed.

Lemma prefix_repr_bytes_body (needle : string) :
  (forall a, has_char a needle = true -> repr_byte quote a = String a EmptyString) ->
  forall b, String.prefix needle (repr_bytes_body quote b) = String.prefix needle b.
Proof.
  induction needle as [| a needle IH]; intros Hplain b.
  - destruct b; cbn; [reflexivity |]. destruct (repr_byte quote _ +:+ _); reflexivity.
  - assert (Ha : repr_byte quote a = String a EmptyString).
    { apply Hplain. cbn. rewrite Ascii.eqb_refl. reflexivity. }
    assert (Hrest : forall x, has_char x needle = true ->
                              repr_byte quote x = String x EmptyString).
    { intros x Hx. apply Hplain. cbn. rewrite Hx. apply orb_true_r. }
    assert (Hab : backslash <> a).
    { intros <-. rewrite repr_byte_backslash in Ha. discriminate. }
    destruct b as [| c b]; [reflexivity |].
    cbn [repr_bytes_body].
    destruct (Ascii.eqb c a) eqn:Eca.
    + apply Ascii.eqb_eq in Eca. subst c. rewrite Ha, append_cons, append_nil_l. cbn.
      destruct (ascii_dec a a); [apply IH; exact Hrest | congruence].
    + apply Ascii.eqb_neq in Eca.
      rewrite (prefix_head_ne a needle c b Eca).
      destruct (repr_byte_head c) as [e [-> | ->]];
        rewrite append_cons; apply prefix_head_ne; assumption.
Qed.

Variables (p0 : ascii) (needle' : string).
Hypothesis head_not_escape : has_char p0 escape_alphabet = false.
Hypothesis needle_plain :
  forall a, has_char a (String p0 needle') = true -> repr_byte quote a = String a EmptyString.

Lemma contains_repr_bytes_body (b : string) :
  contains (String p0 needle') (repr_bytes_body quote b) = contains (String p0 needle') b.
Proof.
  induction b as [| c b IH]; [reflexivity |].
  cbn [contains].
  rewrite <- (prefix_repr_bytes_body (String p0 needle') needle_plain (String c b)).
  cbn [repr_bytes_body].
  destruct (repr_byte_cases c p0 head_not_escape) as [-> | (e & -> & He)].
  - rewrite append_cons, append_nil_l.
    cbn [contains]. rewrite IH. reflexivity.
  - rewrite append_cons. cbn [contains].
    rewrite prefix_head_ne
      by exact (has_char_true_ne p0 backslash escape_alphabet eq_refl head_not_escape).
    cbn [orb]. rewrite contains_skip by exact He. exact IH.
Qed.

End ReprSearch.

(** The search [configure] makes finds the word in the literal exactly when
    the word is in the encoded bytes. *)
Lemma contains_picologging_str_of_bytes (b : string) :
  contains "picologging" (str_of_bytes b) = contains "picologging" b.
Proof.
  unfold str_of_bytes.
  set (quote := if has_char squote b && negb (has_char dquote b) then dquote else squote).
  assert (Hq : quote = squote \/ quote = dquote).
  { subst quote. destruct (has_char squote b && negb (has_char dquote b)); auto. }
  assert (Hplain : forall a, has_char a "picologging" = true ->
                             repr_byte quote a = String a EmptyString).
  { intros a Ha. cbn [has_char] in Ha.
    repeat (apply orb_prop in Ha; destruct Ha as [Ha | Ha]); try discriminate Ha;
      apply Ascii.eqb_eq in Ha; subst a; destruct Hq as [-> | ->]; reflexivity. }
  cbn [contains].
  rewrite prefix_head_ne by discriminate.
  rewrite prefix_head_ne by (destruct Hq as [-> | ->]; discriminate).
  cbn [orb].
  rewrite contains_app_char by (destruct Hq as [-> | ->]; reflexivity).
  apply (contains_repr_bytes_body quote Hq "p"%char "icologging" eq_refl Hplain).
Qed.

(** ** Dictionaries *)

Lemma dict_get_setitem {V} (k : string) (v : V) (d : dict V) :
  dict_get k (dict_setitem k v d) = Some v.
Proof.
  unfold dict_get. induction d as [| [k' v'] d IH]; cbn.
  - rewrite String.eqb_refl. reflexivity.
  - destruct (String.eqb k' k) eqn:E; cbn; rewrite E; [reflexivity | exact IH].
Qed.

Lemma dict_has_setitem {V} (k : string) (v : V) (d : dict V) :
  dict_has k (dict_setitem k v d) = true.
Proof. unfold dict_has. rewrite dict_get_setitem. reflexivity. Qed.

Lemma default_queue_listener (env : Env) :
  exists entry, dict_getitem "queue_listener" (_get_default_handlers env) = Normal entry.
Proof.
  unfold _get_default_handlers, default_handlers.
  destruct (has_picologging env); [| destruct (python_ge_3_12 env)];
    eexists; reflexivity.
Qed.

Lemma default_handlers_have_queue_listener (env : Env) :
  dict_has "queue_listener" (_get_default_handlers env) = true.
Proof.
  unfold _get_default_handlers, default_handlers.
  destruct (has_picologging env); [| destruct (python_ge_3_12 env)]; reflexivity.
Qed.

(** ** LoggingConfig: construction *)

Module LoggingConfigFacts.
Import LoggingConfig.

(** [__post_init__] never raises, establishes the two entries, fills in
    the handler by its rule and leaves the other fields alone. *)
Lemma post_init_spec (env : Env) (self : t) :
  exists self',
    __post_init__ env self = Normal self' /\
    dict_has "queue_listener" (handlers self') = true /\
    dict_has "litestar" (loggers self') = true /\
    (dict_has "queue_listener" (handlers self) = true -> handlers self' = handlers self) /\
    (dict_has "litestar" (loggers self) = true -> loggers self' = loggers self) /\
    exception_logging_handler self'
      = (if negb (is_never (log_exceptions self)) && is_none (exception_logging_handler self)
         then Some (_default_exception_logging_handler_factory false (traceback_line_limit self))
         else exception_logging_handler self) /\
    log_exceptions self' = log_exceptions self /\
    traceback_line_limit self' = traceback_line_limit self /\
    incremental self' = incremental self /\
    formatters self' = formatters self /\
    root self' = root self /\
    configure_root_logger self' = configure_root_logger self.
Proof.
  unfold __post_init__.
  destruct (default_queue_listener env) as [entry Hentry]. rewrite Hentry.
  destruct (dict_has "queue_listener" (handlers self)) eqn:Hh;
    destruct (dict_has "litestar" (loggers self)) eqn:Hl;
    cbn; eexists; (split; [reflexivity |]); cbn;
    rewrite ?dict_has_setitem; repeat split; congruence.
Qed.

End LoggingConfigFacts.

(** ** [dataclasses.asdict]: what the copies keep *)

Lemma bind_normal {A B} (c : Completion A) (k : A -> Completion B) (b : B) :
  bind c k = Normal b -> exists a, c = Normal a /\ k a = Normal b.
Proof. destruct c as [a | e]; [intros Hk; exists a; split; [reflexivity | exact Hk] | discriminate]. Qed.

Section AsdictFacts.

Variable copy_object : value -> Completion value.

Lemma asdict_inner_dict (d : dict value) :
  _asdict_inner copy_object (VDict d)
  = match asdict_items copy_object d with
    | Normal d' => Normal (VDict d')
    | Raised e => Raised e
    end.
Proof. reflexivity. Qed.

(** The copy of a dictionary binds the same keys in the same order. *)
Lemma asdict_items_keys (d d' : dict value) :
  asdict_items copy_object d = Normal d' -> List.map fst d' = List.map fst d.
Proof.
  revert d'. induction d as [| [k x] d IH]; intros d' Hd; cbn in Hd.
  - injection Hd as <-. reflexivity.
  - destruct (_asdict_inner copy_object x) as [y |]; [| discriminate Hd].
    destruct (asdict_items copy_object d) as [ys |]; [| discriminate Hd].
    injection Hd as <-. cbn. rewrite (IH ys eq_refl). reflexivity.
Qed.

Lemma dict_has_keys {V W} (k : string) (d : dict V) (d' : dict W) :
  List.map fst d' = List.map fst d -> dict_has k d' = dict_has k d.
Proof.
  unfold dict_has, dict_get.
  revert d'. induction d as [| [k0 v0] d IH]; intros [| [k1 v1] d'] Hk;
    try discriminate Hk; [reflexivity |].
  cbn in Hk. injection Hk as -> Hk. cbn.
  destruct (String.eqb k0 k); [reflexivity | apply IH; exact Hk].
Qed.

Lemma asdict_items_has (k : string) (d d' : dict value) :
  asdict_items copy_object d = Normal d' -> dict_has k d' = dict_has k d.
Proof. intros Hd. apply dict_has_keys, asdict_items_keys. exact Hd. Qed.

(** Data without objects comes back as it is. *)
Lemma asdict_inner_plain : forall v : value,
  plain_data v = true -> _asdict_inner copy_object v = Normal v.
Proof.
  fix IH 1. intros [| b | z | s | l | d | c | p | h] Hv; try reflexivity;
    try discriminate Hv.
  - cbn in Hv |- *.
    assert (Hl : (fix items (l : list value) : Completion (list value) :=
                    match l with
                    | [] => Normal []
                    | x :: l' =>
                        match _asdict_inner copy_object x with
                        | Raised e => Raised e
                        | Normal y =>
                            match items l' with
                            | Raised e => Raised e
                            | Normal ys => Normal (y :: ys)
                            end
                        end
                    end) l = Normal l).
    { induction l as [| x l IHl]; [reflexivity |].
      cbn in Hv. apply andb_prop in Hv as [Hx Hl].
      rewrite (IH x Hx), (IHl Hl). reflexivity. }
    rewrite Hl. reflexivity.
  - cbn in Hv. rewrite asdict_inner_dict.
    assert (Hd : asdict_items copy_object d = Normal d).
    { induction d as [| [k x] d IHd]; [reflexivity |].
      cbn in Hv. apply andb_prop in Hv as [Hx Hd].
      cbn. rewrite (IH x Hx), (IHd Hd). reflexivity. }
    rewrite Hd. reflexivity.
Qed.

Lemma asdict_items_plain (d : dict value) :
  plain_data (VDict d) = true -> asdict_items copy_object d = Normal d.
Proof.
  intros Hd. pose proof (asdict_inner_plain (VDict d) Hd) as H.
  rewrite asdict_inner_dict in H.
  destruct (asdict_items copy_object d); [congruence | discriminate H].
Qed.

(** An exception of [_asdict_inner] is the exception of [copy_object] on
    an object inside the value. *)
Lemma asdict_inner_raises : forall (v : value) (e : PyException),
  _asdict_inner copy_object v = Raised e -> exists object, copy_object object = Raised e.
Proof.
  fix IH 1. intros [| b | z | s | l | d | c | p | h] e Hv; try discriminate Hv.
  - cbn in Hv.
    assert (Hl : forall e',
               (fix items (l : list value) : Completion (list value) :=
                  match l with
                  | [] => Normal []
                  | x :: l' =>
                      match _asdict_inner copy_object x with
                      | Raised e => Raised e
                      | Normal y =>
                          match items l' with
                          | Raised e => Raised e
                          | Normal ys => Normal (y :: ys)
                          end
                      end
                  end) l = Raised e' ->
               exists object, copy_object object = Raised e').
    { clear Hv. induction l as [| x l IHl]; intros e' Hl; [discriminate Hl |].
      cbn in Hl. destruct (_asdict_inner copy_object x) as [y | ex] eqn:Hx.
      - apply IHl. destruct (_ l) as [ys | el]; [discriminate Hl | congruence].
      - injection Hl as <-. exact (IH x ex Hx). }
    apply Hl. destruct (_ l); [discriminate Hv | congruence].
  - rewrite asdict_inner_dict in Hv.
    assert (Hd : forall e', asdict_items copy_object d = Raised e' ->
                            exists object, copy_object object = Raised e').
    { clear Hv. induction d as [| [k x] d IHd]; intros e' Hd; [discriminate Hd |].
      cbn in Hd. destruct (_asdict_inner copy_object x) as [y | ex] eqn:Hx.
      - apply IHd. destruct (asdict_items copy_object d); [discriminate Hd | congruence].
      - injection Hd as <-. exact (IH x ex Hx). }
    apply Hd. destruct (asdict_items copy_object d); [discriminate Hv | congruence].
  - exists (VProcessor p). exact Hv.
  - exists (VHandler h). exact Hv.
Qed.

Lemma asdict_items_raises (d : dict value) (e : PyException) :
  asdict_items copy_object d = Raised e -> exists object, copy_object object = Raised e.
Proof.
  intros Hd. apply (asdict_inner_raises (VDict d) e).
  rewrite asdict_inner_dict, Hd. reflexivity.
Qed.

End AsdictFacts.

(** ** LoggingConfig: [configure] *)

Section ConfigureFacts.
Import LoggingConfig.

Variable encode_json : value -> Completion string.
Variable copy_object : value -> Completion value.

(** What [asdict] returns, when it returns: the fields in order, the
    dictionaries replaced by their copies. *)
Lemma asdict_shape (self : t) (fields : dict value) :
  asdict copy_object self = Normal fields ->
  exists filters' formatters' handlers' loggers' root' handler',
    fields
    = [ ("version", VInt (version self));
        ("incremental", VBool (incremental self));
        ("disable_existing_loggers", VBool (disable_existing_loggers self));
        ("filters", filters');
        ("propagate", VBool (propagate self));
        ("formatters", VDict formatters');
        ("handlers", VDict handlers');
        ("loggers", VDict loggers');
        ("root", VDict root');
        ("configure_root_logger", VBool (configure_root_logger self));
        ("log_exceptions", VStr (LogExceptions_str (log_exceptions self)));
        ("traceback_line_limit", VInt (traceback_line_limit self));
        ("exception_logging_handler", handler') ] /\
    match filters self with
    | Some d => exists d', asdict_items copy_object d = Normal d' /\ filters' = VDict d'
    | None => filters' = VNone
    end /\
    asdict_items copy_object (formatters self) = Normal formatters' /\
    asdict_items copy_object (handlers self) = Normal handlers' /\
    asdict_items copy_object (loggers self) = Normal loggers' /\
    asdict_items copy_object (root self) = Normal root' /\
    match exception_logging_handler self with
    | Some h => copy_object (VHandler h) = Normal handler'
    | None => handler' = VNone
    end.
Proof.
  unfold asdict, mbind, Completion_bind, mret, Completion_ret. intros Hfields.
  destruct (filters self) as [d |].
  - destruct (asdict_items copy_object d) as [d' |]; [| discriminate Hfields].
    cbn [bind] in Hfields.
    destruct (asdict_items copy_object (formatters self)); [| discriminate Hfields].
    destruct (asdict_items copy_object (handlers self)); [| discriminate Hfields].
    destruct (asdict_items copy_object (loggers self)); [| discriminate Hfields].
    destruct (asdict_items copy_object (root self)); [| discriminate Hfields].
    cbn [bind] in Hfields.
    destruct (exception_logging_handler self) as [h |];
      [destruct (copy_object (VHandler h)) eqn:Hh; [| discriminate Hfields] |];
      cbn [bind] in Hfields; injection Hfields as <-;
      do 6 eexists; (split; [reflexivity |]); repeat split; eauto.
  - cbn [bind] in Hfields.
    destruct (asdict_items copy_object (formatters self)); [| discriminate Hfields].
    destruct (asdict_items copy_object (handlers self)); [| discriminate Hfields].
    destruct (asdict_items copy_object (loggers self)); [| discriminate Hfields].
    destruct (asdict_items copy_object (root self)); [| discriminate Hfields].
    cbn [bind] in Hfields.
    destruct (exception_logging_handler self) as [h |];
      [destruct (copy_object (VHandler h)) eqn:Hh; [| discriminate Hfields] |];
      cbn [bind] in Hfields; injection Hfields as <-;
      do 6 eexists; (split; [reflexivity |]); repeat split; eauto.
Qed.

(** An exception of [asdict] is the exception of [copy_object] on an
    object the configuration holds. *)
Lemma asdict_raises (self : t) (e : PyException) :
  asdict copy_object self = Raised e -> exists object, copy_object object = Raised e.
Proof.
  unfold asdict, mbind, Completion_bind, mret, Completion_ret. intros Hfields.
  assert (Hstep : forall d (k : dict value -> Completion (dict value)),
             bind (asdict_items copy_object d) k = Raised e ->
             (exists object, copy_object object = Raised e) \/
             exists d', asdict_items copy_object d = Normal d' /\ k d' = Raised e).
  { intros d k Hk. destruct (asdict_items copy_object d) as [d' | e'] eqn:Hd.
    - right. exists d'. split; [reflexivity | exact Hk].
    - left. cbn in Hk. injection Hk as ->. exact (asdict_items_raises copy_object d e Hd). }
  destruct (filters self) as [d |].
  - destruct (asdict_items copy_object d) as [d' | e'] eqn:Hd;
      [| cbn in Hfields; injection Hfields as ->;
         exact (asdict_items_raises copy_object d e Hd)].
    cbn [bind] in Hfields.
    apply Hstep in Hfields as [? | (? & _ & Hfields)]; [assumption |].
    apply Hstep in Hfields as [? | (? & _ & Hfields)]; [assumption |].
    apply Hstep in Hfields as [? | (? & _ & Hfields)]; [assumption |].
    apply Hstep in Hfields as [? | (? & _ & Hfields)]; [assumption |].
    destruct (exception_logging_handler self) as [h |]; [| discriminate Hfields].
    destruct (copy_object (VHandler h)) eqn:Hh; [discriminate Hfields |].
    exists (VHandler h). cbn in Hfields. congruence.
  - cbn [bind] in Hfields.
    apply Hstep in Hfields as [? | (? & _ & Hfields)]; [assumption |].
    apply Hstep in Hfields as [? | (? & _ & Hfields)]; [assumption |].
    apply Hstep in Hfields as [? | (? & _ & Hfields)]; [assumption |].
    apply Hstep in Hfields as [? | (? & _ & Hfields)]; [assumption |].
    destruct (exception_logging_handler self) as [h |]; [| discriminate Hfields].
    destruct (copy_object (VHandler h)) eqn:Hh; [discriminate Hfields |].
    exists (VHandler h). cbn in Hfields. congruence.
Qed.

(** What [configure] does once the handlers are encoded and the fields
    copied: the branch is chosen by the search in the encoded text, the
    import can fail in the picologging branch only, and the mapping passed
    on is described field by field. *)
Lemma configure_outcome (env : Env) (self : t) (encoded : string) (fields : dict value) :
  encode_json (VDict (handlers self)) = Normal encoded ->
  asdict copy_object self = Normal fields ->
  exists values handlers' loggers' root',
    configure encode_json copy_object env self
    = (if contains "picologging" (str_of_bytes encoded) then
         if has_picologging env then Normal (HighPerformance, values)
         else Raised (MissingDependencyException "picologging")
       else Normal (Standard, values)) /\
    Forall (fun kv => snd kv <> VNone) values /\
    dict_get "configure_root_logger" values = None /\
    dict_get "root" values
      = (if configure_root_logger self then Some (VDict root') else None) /\
    dict_get "incremental" values
      = (if contains "picologging" (str_of_bytes encoded) then None
         else Some (VBool (incremental self))) /\
    dict_get "handlers" values = Some (VDict handlers') /\
    dict_get "loggers" values = Some (VDict loggers') /\
    asdict_items copy_object (handlers self) = Normal handlers' /\
    asdict_items copy_object (loggers self) = Normal loggers' /\
    asdict_items copy_object (root self) = Normal root'.
Proof.
  intros Henc Hfields.
  destruct (asdict_shape self fields Hfields)
    as (filters' & formatters' & handlers' & loggers' & root' & handler' &
        -> & _ & _ & Hh & Hl & Hr & _).
  unfold configure. rewrite Henc.
  unfold mbind, Completion_bind. cbn [bind]. rewrite Hfields.
  unfold import_picologging.
  assert (Hnone : forall v, is_None v = false -> v <> VNone)
    by (intros v Hv ->; discriminate Hv).
  generalize (contains "picologging" (str_of_bytes encoded)). intros [|];
    destruct (is_None filters') eqn:Hf, (is_None handler') eqn:He,
             (configure_root_logger self);
    cbn; rewrite ?Hf, ?He; cbn; eexists; exists handlers', loggers', root';
    (split; [destruct (has_picologging env); reflexivity |]);
    (split; [repeat constructor; cbn; solve [discriminate | apply Hnone; assumption] |]);
    repeat split; solve [reflexivity | assumption].
Qed.

Lemma configure_encoder_failure (env : Env) (self : t) (e : PyException) :
  encode_json (VDict (handlers self)) = Raised e ->
  configure encode_json copy_object env self = Raised e.
Proof. intros Henc. unfold configure. rewrite Henc. reflexivity. Qed.

(** When a field cannot be copied, [configure] ends with that exception,
    after the import of the backend it chose. *)
Lemma configure_asdict_failure (env : Env) (self : t) (encoded : string) (e : PyException) :
  encode_json (VDict (handlers self)) = Normal encoded ->
  asdict copy_object self = Raised e ->
  configure encode_json copy_object env self
  = if contains "picologging" (str_of_bytes encoded) then
      if has_picologging env then Raised e
      else Raised (MissingDependencyException "picologging")
    else Raised e.
Proof.
  intros Henc Hfields. unfold configure. rewrite Henc.
  unfold mbind, Completion_bind. cbn [bind]. rewrite Hfields.
  unfold import_picologging.
  destruct (contains "picologging" (str_of_bytes encoded));
    [destruct (has_picologging env) |]; reflexivity.
Qed.

End ConfigureFacts.

(** ** What the search means *)

Lemma prefix_spec (needle hay : string) :
  String.prefix needle hay = true <-> exists rest, hay = needle +:+ rest.
Proof.
  revert hay. induction needle as [| a needle IH]; intros hay.
  - split; [intros _; exists hay; reflexivity | intros _; destruct hay; reflexivity].
  - destruct hay as [| b hay]; cbn.
    + split; [discriminate | intros [rest Hrest]; rewrite append_cons in Hrest; discriminate].
    + destruct (ascii_dec a b) as [<- | Hne].
      * rewrite IH. split; intros [rest Hrest]; exists rest.
        -- rewrite append_cons. congruence.
        -- rewrite append_cons in Hrest. congruence.
      * split; [discriminate |].
        intros [rest Hrest]. rewrite append_cons in Hrest. congruence.
Qed.

(** [contains needle hay] holds exactly when [needle] occurs somewhere in
    [hay]. *)
Lemma contains_spec (needle hay : string) :
  contains needle hay = true <-> exists before after, hay = before +:+ needle +:+ after.
Proof.
  induction hay as [| c hay IH]; cbn [contains].
  - rewrite orb_false_r, prefix_spec. split.
    + intros [rest Hrest]. exists EmptyString, rest. exact Hrest.
    + intros [[| x before] [after Heq]]; [exists after; exact Heq |].
      rewrite append_cons in Heq. discriminate.
  - rewrite orb_true_iff, prefix_spec, IH. split.
    + intros [[rest Hrest] | (before & after & Heq)].
      * exists EmptyString, rest. exact Hrest.
      * exists (String c before), after. rewrite append_cons. congruence.
    + intros [[| x before] [after Heq]].
      * left. exists after. exact Heq.
      * right. rewrite append_cons in Heq. exists before, after. congruence.
Qed.

(** The search [configure] makes in the literal of the encoded bytes
    succeeds exactly when the word occurs in the bytes themselves: quoting
    and escaping neither create nor hide a match. *)
Theorem literal_search_finds_word_in_bytes (b : string) :
  contains "picologging" (str_of_bytes b) = true
  <-> exists before after, b = before +:+ "picologging" +:+ after.
Proof.
  rewrite contains_picologging_str_of_bytes. apply contains_spec.
Qed.

(** ** LoggingConfig: the claims about [configure] *)

Section ConfigureClaims.
Import LoggingConfig.

(** The default handler table encodes, and the word is in its encoding
    exactly when picologging is installed. *)
Lemma default_handlers_encoding (env : Env) :
  exists encoded,
    Json.encode (VDict (_get_default_handlers env)) = Normal encoded /\
    contains "picologging" encoded = has_picologging env.
Proof.
  unfold _get_default_handlers, default_handlers.
  destruct (has_picologging env); [| destruct (python_ge_3_12 env)];
    eexists; split; vm_compute; reflexivity.
Qed.

(** C10: once the handlers are encoded, [configure] takes the picologging
    branch exactly when the word picologging occurs in the encoding, and
    the standard library branch otherwise.  Whether picologging is
    installed is not asked: in the picologging branch a missing package
    is a [MissingDependencyException].  In the branch taken the fields are
    copied, and [configure] goes on to [dictConfig] of that backend unless
    a field cannot be copied.  The word counts wherever it stands;
    handlers of the standard library with the word in a format string
    select picologging. *)
Theorem configure_backend_follows_substring
    (encode_json : value -> Completion string) (copy_object : value -> Completion value)
    (env : Env) (self : t) :
  match encode_json (VDict (handlers self)) with
  | Normal encoded =>
      if contains "picologging" encoded then
        if has_picologging env then
          match asdict copy_object self with
          | Normal _ =>
              exists values,
                configure encode_json copy_object env self
                = Normal (HighPerformance, values)
          | Raised e => configure encode_json copy_object env self = Raised e
          end
        else
          configure encode_json copy_object env self
          = Raised (MissingDependencyException "picologging")
      else
        match asdict copy_object self with
        | Normal _ =>
            exists values,
              configure encode_json copy_object env self = Normal (Standard, values)
        | Raised e => configure encode_json copy_object env self = Raised e
        end
  | Raised e => configure encode_json copy_object env self = Raised e
  end /\
  (exists self' values,
     new full_env word_in_format_args = Normal self' /\
     handlers self' = stdlib_handlers_with_word /\
     configure Json.encode copy_equal full_env self' = Normal (HighPerformance, values)) /\
  (exists self',
     new bare_env word_in_format_args = Normal self' /\
     handlers self' = stdlib_handlers_with_word /\
     configure Json.encode copy_equal bare_env self'
     = Raised (MissingDependencyException "picologging")).
Proof.
  split; [| split].
  - destruct (encode_json (VDict (handlers self))) as [encoded | e] eqn:Henc;
      [| apply configure_encoder_failure; exact Henc].
    destruct (asdict copy_object self) as [fields | e] eqn:Hfields.
    + destruct (configure_outcome encode_json copy_object env self encoded fields
                  Henc Hfields) as (values & _ & _ & _ & Hc & _).
      rewrite contains_picologging_str_of_bytes in Hc.
      destruct (contains "picologging" encoded);
        [destruct (has_picologging env) |]; try (exists values); exact Hc.
    + pose proof (configure_asdict_failure encode_json copy_object env self encoded e
                    Henc Hfields) as Hc.
      rewrite contains_picologging_str_of_bytes in Hc.
      destruct (contains "picologging" encoded);
        [destruct (has_picologging env) |]; exact Hc.
  - eexists. eexists. split; [reflexivity |]. split; [reflexivity |].
    vm_compute. reflexivity.
  - eexists. split; [reflexivity |]. split; [reflexivity |].
    vm_compute. reflexivity.
Qed.

(** C6: when the handlers encode, the import of the chosen backend succeeds
    and the fields can be copied, [configure] passes on a mapping with no
    [None] value and no [configure_root_logger] key; [root] is in it
    exactly when [configure_root_logger] is set, as the copy of the
    supplied entry, which is the supplied entry itself for a [root] made
    of plain data; [incremental] is dropped for picologging and kept for
    the standard library. *)
Theorem configure_values_shape
    (encode_json : value -> Completion string) (copy_object : value -> Completion value)
    (env : Env) (self : t) (encoded : string) (fields : dict value) :
  encode_json (VDict (handlers self)) = Normal encoded ->
  contains "picologging" encoded && negb (has_picologging env) = false ->
  asdict copy_object self = Normal fields ->
  exists backend values root',
    configure encode_json copy_object env self = Normal (backend, values) /\
    backend = (if contains "picologging" encoded then HighPerformance else Standard) /\
    Forall (fun kv => snd kv <> VNone) values /\
    dict_get "configure_root_logger" values = None /\
    asdict_items copy_object (root self) = Normal root' /\
    (plain_data (VDict (root self)) = true -> root' = root self) /\
    dict_get "root" values
      = (if configure_root_logger self then Some (VDict root') else None) /\
    dict_get "incremental" values
      = match backend with
        | HighPerformance => None
        | Standard => Some (VBool (incremental self))
        end.
Proof.
  intros Henc Himport Hfields.
  destruct (configure_outcome encode_json copy_object env self encoded fields Henc Hfields)
    as (values & handlers' & loggers' & root' &
        Hc & Hnone & Hflag & Hroot & Hincr & _ & _ & _ & _ & Hr).
  rewrite contains_picologging_str_of_bytes in Hc, Hincr.
  assert (Hplain : plain_data (VDict (root self)) = true -> root' = root self).
  { intros Hp. rewrite (asdict_items_plain copy_object (root self) Hp) in Hr. congruence. }
  destruct (contains "picologging" encoded).
  - destruct (has_picologging env); [| discriminate Himport].
    exists HighPerformance, values, root'. repeat split; assumption.
  - exists Standard, values, root'. repeat split; assumption.
Qed.

Lemma configure_values_shape_witness :
  exists values,
    configure Json.encode copy_equal bare_env (__init__ bare_env (warning_root_args true))
    = Normal (Standard, values) /\
    dict_get "root" values = Some (VDict warning_root) /\
    dict_get "incremental" values = Some (VBool false).
Proof.
  edestruct (configure_values_shape Json.encode copy_equal bare_env
               (__init__ bare_env (warning_root_args true)))
    as (backend & values & root' & Hc & Hb & _ & _ & _ & Hplain & Hroot & Hincr).
  - vm_compute. reflexivity.
  - vm_compute. reflexivity.
  - vm_compute. reflexivity.
  - exists values. subst backend. rewrite (Hplain eq_refl) in Hroot.
    split; [exact Hc |]. split; [exact Hroot | exact Hincr].
Defined.

(** With explicit arguments or without, a configuration that [configure]
    compiles has its handlers and loggers in the compiled mapping, under
    the keys they had. *)
Lemma configure_keeps_entries
    (encode_json : value -> Completion string) (copy_object : value -> Completion value)
    (env : Env) (self : t) backend values :
  configure encode_json copy_object env self = Normal (backend, values) ->
  exists handlers' loggers',
    dict_get "handlers" values = Some (VDict handlers') /\
    List.map fst handlers' = List.map fst (handlers self) /\
    dict_get "loggers" values = Some (VDict loggers') /\
    List.map fst loggers' = List.map fst (loggers self).
Proof.
  intros Hc.
  destruct (encode_json (VDict (handlers self))) as [encoded | e] eqn:Henc;
    [| rewrite (configure_encoder_failure encode_json copy_object env self e Henc) in Hc;
       discriminate Hc].
  destruct (asdict copy_object self) as [fields | e] eqn:Hfields.
  - destruct (configure_outcome encode_json copy_object env self encoded fields
                Henc Hfields)
      as (values' & handlers' & loggers' & root' & Hc' & _ & _ & _ & _ & Hh & Hl & Hch & Hcl & _).
    rewrite Hc in Hc'.
    exists handlers', loggers'.
    destruct (contains "picologging" (str_of_bytes encoded));
      [destruct (has_picologging env) |]; try discriminate Hc';
      injection Hc' as _ ->; repeat split;
      solve [assumption | apply (asdict_items_keys copy_object); assumption].
  - rewrite (configure_asdict_failure encode_json copy_object env self encoded e
               Henc Hfields) in Hc.
    destruct (contains "picologging" (str_of_bytes encoded));
      [destruct (has_picologging env) |]; discriminate Hc.
Qed.

(** C5: construction always succeeds and leaves a [queue_listener]
    handler and a [litestar] logger in place, and an exception handler
    unless the policy is [never]; a configuration built without explicit
    handlers and loggers, whose fields can be copied, compiles, and the
    compiled mapping has both entries too. *)
Theorem logging_config_invariant
    (copy_object : value -> Completion value) (env : Env) (a : args) :
  exists self,
    new env a = Normal self /\
    dict_has "queue_listener" (handlers self) = true /\
    dict_has "litestar" (loggers self) = true /\
    is_never (log_exceptions self) || negb (is_none (exception_logging_handler self)) = true /\
    (is_none (arg_handlers a) && is_none (arg_loggers a) = true ->
     returns (asdict copy_object self) = true ->
     exists backend values compiled_handlers compiled_loggers,
       configure Json.encode copy_object env self = Normal (backend, values) /\
       dict_get "handlers" values = Some (VDict compiled_handlers) /\
       dict_has "queue_listener" compiled_handlers = true /\
       dict_get "loggers" values = Some (VDict compiled_loggers) /\
       dict_has "litestar" compiled_loggers = true).
Proof.
  unfold new.
  destruct (LoggingConfigFacts.post_init_spec env (__init__ env a))
    as (self & Hpost & Hq & Hl & Hkeep & _ & Hh & Hpol & _).
  exists self. split; [exact Hpost |]. split; [exact Hq |]. split; [exact Hl |]. split.
  - rewrite Hh, Hpol.
    destruct (is_never (log_exceptions (__init__ env a)));
      destruct (exception_logging_handler (__init__ env a)); reflexivity.
  - intros [Hah Hal]%andb_prop Hreturns.
    destruct (asdict copy_object self) as [fields |] eqn:Hfields; [| discriminate Hreturns].
    assert (Hhandlers : handlers self = _get_default_handlers env).
    { rewrite Hkeep; cbn [__init__ handlers].
      - destruct (arg_handlers a); [discriminate Hah | reflexivity].
      - destruct (arg_handlers a); [discriminate Hah |].
        apply default_handlers_have_queue_listener. }
    destruct (default_handlers_encoding env) as (encoded & Henc & Hword).
    rewrite <- Hhandlers in Henc.
    destruct (configure_outcome Json.encode copy_object env self encoded fields
                Henc Hfields)
      as (values & handlers' & loggers' & root' &
          Hc & _ & _ & _ & _ & Hvh & Hvl & Hch & Hcl & _).
    rewrite contains_picologging_str_of_bytes, Hword in Hc.
    exists (if has_picologging env then HighPerformance else Standard), values,
      handlers', loggers'.
    split; [rewrite Hc; destruct (has_picologging env); reflexivity |].
    split; [exact Hvh |]. split.
    { rewrite (asdict_items_has copy_object _ _ _ Hch). exact Hq. }
    split; [exact Hvl |].
    rewrite (asdict_items_has copy_object _ _ _ Hcl). exact Hl.
Qed.

Lemma logging_config_invariant_witness :
  exists self backend values,
    new full_env no_args = Normal self /\
    dict_has "queue_listener" (handlers self) = true /\
    configure Json.encode copy_equal full_env self = Normal (backend, values).
Proof.
  destruct (logging_config_invariant copy_equal full_env no_args)
    as (self & Hnew & Hq & _ & _ & Hcompiled).
  assert (Hreturns : returns (asdict copy_equal self) = true).
  { revert Hnew. unfold new. cbn. intros [= <-]. reflexivity. }
  destruct (Hcompiled eq_refl Hreturns) as (backend & values & _ & _ & Hc & _).
  exists self, backend, values. repeat split; assumption.
Defined.

End ConfigureClaims.

(** ** Construction and the exception logging handler *)

Section ConstructionClaims.

Lemma logging_config_new_returns (env : Env) (a : LoggingConfig.args) :
  exists config, LoggingConfig.new env a = Normal config.
Proof.
  destruct (LoggingConfigFacts.post_init_spec env (LoggingConfig.__init__ env a))
    as (config & Hpost & _).
  exists config. exact Hpost.
Qed.

(** [StructLoggingConfig.__post_init__] never raises; what it does to
    the handler, to the wrapped configuration, and the fields it fills in. *)
Lemma struct_post_init_spec (env : Env) (self : StructLoggingConfig.t) :
  exists self',
    StructLoggingConfig.__post_init__ env self = Normal self' /\
    StructLoggingConfig.exception_logging_handler self'
      = (if negb (is_never (StructLoggingConfig.log_exceptions self)) &&
            is_none (StructLoggingConfig.exception_logging_handler self)
         then Some (_default_exception_logging_handler_factory true
                      (StructLoggingConfig.traceback_line_limit self))
         else StructLoggingConfig.exception_logging_handler self) /\
    StructLoggingConfig.log_exceptions self' = StructLoggingConfig.log_exceptions self /\
    StructLoggingConfig.standard_lib_logging_config self'
      = (if has_structlog env then
           match StructLoggingConfig.standard_lib_logging_config self with
           | Some supplied => Some supplied
           | None =>
               match LoggingConfig.new env
                       (LoggingConfig.mk_args None None None None None
                          (Some (StructLoggingConfig.bridge_formatters env
                                   (negb (stderr_isatty env) &&
                                    StructLoggingConfig.pretty_print_tty self)))
                          None None None None None None None) with
               | Normal config => Some config
               | Raised _ => None
               end
           end
         else
           match LoggingConfig.new env LoggingConfig.no_args with
           | Normal config => Some config
           | Raised _ => None
           end).
Proof.
  unfold StructLoggingConfig.__post_init__.
  destruct (has_structlog env).
  - destruct (StructLoggingConfig.standard_lib_logging_config self) as [supplied |].
    + cbn. eexists. repeat split; reflexivity.
    + cbn [is_none].
      destruct (logging_config_new_returns env
                  (LoggingConfig.mk_args None None None None None
                     (Some (StructLoggingConfig.bridge_formatters env
                              (negb (stderr_isatty env) &&
                               StructLoggingConfig.pretty_print_tty self)))
                     None None None None None None None)) as [config ->].
      cbn. eexists. repeat split; reflexivity.
  - destruct (logging_config_new_returns env LoggingConfig.no_args) as [config ->].
    cbn. eexists. repeat split; reflexivity.
Qed.

(** With structlog there, a wrapped configuration that was supplied is
    kept, and one is built only when none was. *)
Lemma struct_post_init_keeps_supplied_config
    (env : Env) (self : StructLoggingConfig.t) (supplied : LoggingConfig.t) :
  has_structlog env = true ->
  StructLoggingConfig.standard_lib_logging_config self = Some supplied ->
  exists self',
    StructLoggingConfig.__post_init__ env self = Normal self' /\
    StructLoggingConfig.standard_lib_logging_config self' = Some supplied.
Proof.
  intros Henv Hsupplied.
  destruct (struct_post_init_spec env self) as (self' & Hpost & _ & _ & Hstd).
  exists self'. split; [exact Hpost |].
  rewrite Hstd, Henv, Hsupplied. reflexivity.
Qed.

(** C3, without structlog: a wrapped configuration built with
    [LoggingConfig(incremental=True)] and handed to the constructor is
    replaced by a plain [LoggingConfig()], where the claim has it left as
    it was. *)
Theorem struct_post_init_replaces_supplied_config :
  exists supplied fresh self',
    LoggingConfig.new bare_env incremental_args = Normal supplied /\
    LoggingConfig.new bare_env LoggingConfig.no_args = Normal fresh /\
    StructLoggingConfig.__post_init__ bare_env (struct_init (Some supplied) debug None)
      = Normal self' /\
    StructLoggingConfig.standard_lib_logging_config self' = Some fresh /\
    LoggingConfig.incremental supplied = true /\
    LoggingConfig.incremental fresh = false /\
    StructLoggingConfig.standard_lib_logging_config self' <> Some supplied.
Proof.
  eexists. eexists. eexists.
  split; [reflexivity |]. split; [reflexivity |]. split; [reflexivity |].
  split; [reflexivity |]. split; [reflexivity |]. split; [reflexivity |].
  cbn. intros Heq. discriminate Heq.
Qed.

(** C4, as stated, fails: with the policy [never] a handler that was
    supplied is still there after construction, in both classes. *)
Lemma never_policy_keeps_handler_counterexample :
  (exists self,
     LoggingConfig.new bare_env never_with_handler_args = Normal self /\
     LoggingConfig.log_exceptions self = never /\
     is_none (LoggingConfig.exception_logging_handler self) = false) /\
  (exists self,
     StructLoggingConfig.__post_init__ full_env
       (struct_init None never (Some custom_handler)) = Normal self /\
     StructLoggingConfig.log_exceptions self = never /\
     is_none (StructLoggingConfig.exception_logging_handler self) = false).
Proof.
  split; eexists; (split; [reflexivity |]); split; reflexivity.
Qed.

(** C4, amended: with the policy [never], construction leaves the
    exception handler as it was given, in both classes; it is absent
    after construction exactly when none was given. *)
Theorem never_policy_leaves_handler_as_given
    (env : Env) (a : LoggingConfig.args) (s : StructLoggingConfig.t) :
  LoggingConfig.arg_log_exceptions a = Some never ->
  StructLoggingConfig.log_exceptions s = never ->
  (exists self,
     LoggingConfig.new env a = Normal self /\
     LoggingConfig.exception_logging_handler self
       = LoggingConfig.arg_exception_logging_handler a) /\
  (exists self,
     StructLoggingConfig.__post_init__ env s = Normal self /\
     StructLoggingConfig.exception_logging_handler self
       = StructLoggingConfig.exception_logging_handler s).
Proof.
  intros Ha Hs. split.
  - unfold LoggingConfig.new.
    destruct (LoggingConfigFacts.post_init_spec env (LoggingConfig.__init__ env a))
      as (self & Hpost & _ & _ & _ & _ & Hh & _).
    exists self. split; [exact Hpost |].
    rewrite Hh. cbn [LoggingConfig.__init__ LoggingConfig.log_exceptions
                     LoggingConfig.exception_logging_handler].
    rewrite Ha. reflexivity.
  - destruct (struct_post_init_spec env s) as (self & Hpost & Hh & _).
    exists self. split; [exact Hpost |].
    rewrite Hh, Hs. reflexivity.
Qed.

Lemma never_policy_leaves_handler_as_given_witness :
  (exists self,
     LoggingConfig.new bare_env never_args = Normal self /\
     LoggingConfig.exception_logging_handler self = None) /\
  (exists self,
     StructLoggingConfig.__post_init__ bare_env (struct_init None never None) = Normal self /\
     StructLoggingConfig.exception_logging_handler self = None).
Proof.
  apply (never_policy_leaves_handler_as_given bare_env never_args
           (struct_init None never None)); reflexivity.
Defined.

End ConstructionClaims.

(** * Further properties *)

(** ** The exception logging handler: limits and failures *)

Section HandlerLimits.

Lemma slice_from_positive {A} (n : Z) (l : list A) :
  0 <= n -> slice_from n l = skipn (Z.to_nat n) l.
Proof.
  intros Hn. unfold slice_from.
  destruct (Z.ltb_spec n 0) as [? | _]; [lia |].
  destruct (Z.le_gt_cases n (Z.of_nat (length l))) as [Hle | Hgt].
  - rewrite Z.min_l by exact Hle. reflexivity.
  - rewrite Z.min_r by lia. rewrite Nat2Z.id.
    rewrite !skipn_all2 by lia. reflexivity.
Qed.

Lemma handler_call_eq (is_struct_logger : bool) (limit : Z) logger scope first_line rest :
  _default_exception_logging_handler_factory is_struct_logger limit logger scope
    (first_line :: rest)
  = exception logger
      (handler_call is_struct_logger scope first_line (traceback_tail limit rest)).
Proof. destruct is_struct_logger; reflexivity. Qed.

(** With a limit of at least one, both variants log exactly the last
    [limit] lines that follow the first line, and all of them when there are
    no more than [limit]; the structured variant leaves the first line out,
    the other one puts it in front. *)
Theorem handler_keeps_last_lines
    (is_struct_logger : bool) (limit : Z) logger scope first_line (rest : list string) :
  0 < limit ->
  let kept := skipn (length rest - Z.to_nat limit) rest in
  _default_exception_logging_handler_factory is_struct_logger limit logger scope
    (first_line :: rest)
  = exception logger (handler_call is_struct_logger scope first_line kept) /\
  length kept = Nat.min (Z.to_nat limit) (length rest) /\
  kept `suffix_of` rest /\
  (Z.of_nat (length rest) <= limit -> kept = rest).
Proof.
  intros Hl kept. subst kept. repeat split.
  - rewrite handler_call_eq. unfold traceback_tail.
    rewrite slice_from_negative by exact Hl. reflexivity.
  - rewrite length_skipn. lia.
  - apply suffix_drop.
  - intros Hle. replace (length rest - Z.to_nat limit)%nat with 0%nat by lia. reflexivity.
Qed.

Lemma handler_keeps_last_lines_witness :
  _default_exception_logging_handler_factory true 20 quiet_logger http_scope traceback25
  = exception quiet_logger
      (handler_call true http_scope (hd EmptyString traceback25)
         (skipn 4 (tl traceback25))).
Proof.
  apply (handler_keeps_last_lines true 20 quiet_logger http_scope
           (hd EmptyString traceback25) (tl traceback25)).
  lia.
Defined.

(** A negative limit [-k] does not bound the output: the slice drops the
    first [k] lines that follow the first line and keeps all the others. *)
Theorem handler_negative_limit_drops_front
    (is_struct_logger : bool) (limit : Z) logger scope first_line (rest : list string) :
  limit < 0 ->
  _default_exception_logging_handler_factory is_struct_logger limit logger scope
    (first_line :: rest)
  = exception logger
      (handler_call is_struct_logger scope first_line (skipn (Z.to_nat (- limit)) rest)).
Proof.
  intros Hl. rewrite handler_call_eq. unfold traceback_tail.
  rewrite slice_from_positive by lia. reflexivity.
Qed.

Lemma handler_negative_limit_drops_front_witness :
  _default_exception_logging_handler_factory false (-2) quiet_logger http_scope
    ["a"; "b"; "c"; "d"]
  = exception quiet_logger (handler_call false http_scope "a" ["d"]).
Proof.
  apply (handler_negative_limit_drops_front false (-2) quiet_logger http_scope "a"
           ["b"; "c"; "d"]).
  lia.
Defined.

(** The handler raises in two ways only: [IndexError] on an empty
    traceback, before the logger is touched, or the exception of the one
    [logger.exception] call it makes. *)
Theorem handler_exception_origin
    (is_struct_logger : bool) (limit : Z) logger scope (tb : list string) (e : PyException) :
  _default_exception_logging_handler_factory is_struct_logger limit logger scope tb
    = Raised e ->
  (tb = [] /\ e = IndexError "pop from empty list") \/
  (exists first_line rest,
     tb = first_line :: rest /\
     exception logger
       (handler_call is_struct_logger scope first_line (traceback_tail limit rest))
     = Raised e).
Proof.
  intros Hr. destruct tb as [| first_line rest].
  - left. split; [reflexivity |]. cbn in Hr. congruence.
  - right. exists first_line, rest. split; [reflexivity |].
    rewrite <- handler_call_eq. exact Hr.
Qed.

Lemma handler_exception_origin_witness :
  ([] = @nil string /\ IndexError "pop from empty list" = IndexError "pop from empty list") \/
  (exists first_line rest,
     [] = first_line :: rest /\
     exception quiet_logger
       (handler_call true http_scope first_line (traceback_tail 20 rest))
     = Raised (IndexError "pop from empty list")).
Proof.
  apply (handler_exception_origin true 20 quiet_logger http_scope []
           (IndexError "pop from empty list")).
  reflexivity.
Defined.

End HandlerLimits.

(** ** LoggingConfig: what construction changes and what it keeps *)

Section ConstructionFrame.
Import LoggingConfig.

Lemma dict_get_setitem_ne {V} (k k' : string) (v : V) (d : dict V) :
  k' <> k -> dict_get k' (dict_setitem k v d) = dict_get k' d.
Proof.
  intros Hne. unfold dict_get.
  assert (Hkk : String.eqb k k' = false) by (apply String.eqb_neq; congruence).
  induction d as [| [k0 v0] d IH]; cbn.
  - rewrite Hkk. reflexivity.
  - destruct (String.eqb k0 k) eqn:E0; cbn.
    + apply String.eqb_eq in E0. subst k0. rewrite Hkk. reflexivity.
    + destruct (String.eqb k0 k'); [reflexivity | exact IH].
Qed.

Lemma dict_has_false_get {V} (k : string) (d : dict V) :
  dict_has k d = false -> dict_get k d = None.
Proof. unfold dict_has. destruct (dict_get k d); [discriminate | reflexivity]. Qed.

(** [d[k] = v] on a dictionary without [k]: [k] is bound to [v] and every
    other lookup is as before. *)
Lemma dict_get_setitem_fresh {V} (k k' : string) (v : V) (d : dict V) :
  dict_has k d = false ->
  dict_get k' (dict_setitem k v d)
  = match dict_get k' d with
    | Some v' => Some v'
    | None => if String.eqb k' k then Some v else None
    end.
Proof.
  intros Hfresh. destruct (String.eqb k' k) eqn:E.
  - apply String.eqb_eq in E. subst k'.
    rewrite dict_get_setitem, (dict_has_false_get k d Hfresh). reflexivity.
  - apply String.eqb_neq in E. rewrite dict_get_setitem_ne by exact E.
    destruct (dict_get k' d); reflexivity.
Qed.

Lemma dict_get_present {V} (k k' : string) (alt : option V) (d : dict V) :
  dict_has k d = true ->
  dict_get k' d
  = match dict_get k' d with
    | Some v' => Some v'
    | None => if String.eqb k' k then alt else None
    end.
Proof.
  intros Hk. destruct (dict_get k' d) eqn:Hk'; [reflexivity |].
  destruct (String.eqb_spec k' k) as [-> | _]; [| reflexivity].
  unfold dict_has in Hk. rewrite Hk' in Hk. discriminate.
Qed.

(** Construction only adds: every handler and logger that was supplied is
    still bound to the same settings, the one entry that can appear in each
    mapping is the missing [queue_listener] (copied from the default table
    of the installed backend) or [litestar] entry, and no other field but
    the exception handler is touched. *)
Theorem post_init_only_adds (env : Env) (self : t) :
  exists self',
    __post_init__ env self = Normal self' /\
    (forall k,
       dict_get k (handlers self')
       = match dict_get k (handlers self) with
         | Some v => Some v
         | None =>
             if String.eqb k "queue_listener"
             then dict_get "queue_listener" (_get_default_handlers env)
             else None
         end) /\
    (forall k,
       dict_get k (loggers self')
       = match dict_get k (loggers self) with
         | Some v => Some v
         | None =>
             if String.eqb k "litestar"
             then Some (VDict [ ("level", VStr "INFO");
                                ("handlers", VList [VStr "queue_listener"]);
                                ("propagate", VBool false) ])
             else None
         end) /\
    version self' = version self /\
    incremental self' = incremental self /\
    disable_existing_loggers self' = disable_existing_loggers self /\
    filters self' = filters self /\
    propagate self' = propagate self /\
    formatters self' = formatters self /\
    root self' = root self /\
    configure_root_logger self' = configure_root_logger self /\
    log_exceptions self' = log_exceptions self /\
    traceback_line_limit self' = traceback_line_limit self.
Proof.
  unfold __post_init__.
  destruct (default_queue_listener env) as [entry Hentry]. rewrite Hentry.
  assert (Hdefault : dict_get "queue_listener" (_get_default_handlers env) = Some entry).
  { unfold dict_getitem in Hentry.
    destruct (dict_get "queue_listener" (_get_default_handlers env));
      [congruence | discriminate]. }
  rewrite Hdefault.
  destruct (dict_has "queue_listener" (handlers self)) eqn:Hh;
    destruct (dict_has "litestar" (loggers self)) eqn:Hl;
    cbn; eexists; (split; [reflexivity |]); cbn;
    (split; [| split; [| repeat split; reflexivity]]); intros k;
    first [ apply dict_get_setitem_fresh; assumption
          | apply dict_get_present; assumption ].
Qed.

(** Running the defaulting a second time changes nothing. *)
Theorem post_init_idempotent (env : Env) (self : t) :
  exists self',
    __post_init__ env self = Normal self' /\
    __post_init__ env self' = Normal self'.
Proof.
  destruct (LoggingConfigFacts.post_init_spec env self)
    as (self' & Hpost & Hq & Hl & _ & _ & Hh & Hpol & _).
  exists self'. split; [exact Hpost |].
  unfold __post_init__. rewrite Hq, Hl. cbn.
  destruct self' as [v i d f p fm h lg r c pol lim eh]. cbn in *.
  f_equal. f_equal.
  subst pol. rewrite Hh.
  destruct (is_never (log_exceptions self));
    destruct (exception_logging_handler self); reflexivity.
Qed.

(** How the exception handler is resolved, in both classes: a handler that
    was supplied is kept whatever the policy; without one, the default
    handler of the class is installed with the configured line limit unless
    the policy is [never]. *)
Theorem exception_handler_resolution (env : Env) (a : args) (s : StructLoggingConfig.t) :
  (exists self,
     new env a = Normal self /\
     exception_logging_handler self
     = match arg_exception_logging_handler a with
       | Some h => Some h
       | None =>
           if is_never (default debug (arg_log_exceptions a)) then None
           else Some (_default_exception_logging_handler_factory false
                        (default 20 (arg_traceback_line_limit a)))
       end) /\
  (exists self,
     StructLoggingConfig.__post_init__ env s = Normal self /\
     StructLoggingConfig.exception_logging_handler self
     = match StructLoggingConfig.exception_logging_handler s with
       | Some h => Some h
       | None =>
           if is_never (StructLoggingConfig.log_exceptions s) then None
           else Some (_default_exception_logging_handler_factory true
                        (StructLoggingConfig.traceback_line_limit s))
       end).
Proof.
  split.
  - unfold new.
    destruct (LoggingConfigFacts.post_init_spec env (__init__ env a))
      as (self & Hpost & _ & _ & _ & _ & Hh & _).
    exists self. split; [exact Hpost |]. rewrite Hh. cbn.
    destruct (arg_exception_logging_handler a);
      destruct (is_never (default debug (arg_log_exceptions a))); reflexivity.
  - destruct (struct_post_init_spec env s) as (self & Hpost & Hh & _).
    exists self. split; [exact Hpost |]. rewrite Hh.
    destruct (StructLoggingConfig.exception_logging_handler s);
      destruct (is_never (StructLoggingConfig.log_exceptions s)); reflexivity.
Qed.

End ConstructionFrame.

(** ** LoggingConfig: the mapping [configure] passes on, in full *)

Section ConfigureMapping.
Import LoggingConfig.

Variable encode_json : value -> Completion string.
Variable copy_object : value -> Completion value.

(** For a configuration of plain data whose exception handler, if any,
    copies to itself (as a function does), the mapping handed to
    [dictConfig], entry by entry and in order.  Beside the settings
    [dictConfig] knows, it always carries [log_exceptions] and
    [traceback_line_limit], and the exception handler when there is one;
    [filters] is there only when set, [root] only when the root logger is
    to be configured, [incremental] only for the standard library. *)
Theorem configure_values_exact (env : Env) (self : t) (encoded : string) :
  encode_json (VDict (handlers self)) = Normal encoded ->
  contains "picologging" encoded && negb (has_picologging env) = false ->
  plain_config self = true ->
  match exception_logging_handler self with
  | Some h => copy_object (VHandler h) = Normal (VHandler h)
  | None => True
  end ->
  configure encode_json copy_object env self
  = Normal
      (if contains "picologging" encoded then HighPerformance else Standard,
       ([("version", VInt (version self))]
       ++ (if contains "picologging" encoded then []
           else [("incremental", VBool (incremental self))])
       ++ [("disable_existing_loggers", VBool (disable_existing_loggers self))]
       ++ match filters self with
          | Some d => [("filters", VDict d)]
          | None => []
          end
       ++ [ ("propagate", VBool (propagate self));
            ("formatters", VDict (formatters self));
            ("handlers", VDict (handlers self));
            ("loggers", VDict (loggers self)) ]
       ++ (if configure_root_logger self then [("root", VDict (root self))] else [])
       ++ [ ("log_exceptions", VStr (LogExceptions_str (log_exceptions self)));
            ("traceback_line_limit", VInt (traceback_line_limit self)) ]
       ++ match exception_logging_handler self with
          | Some h => [("exception_logging_handler", VHandler h)]
          | None => []
          end)%list).
Proof.
  intros Henc Himport Hplain Hhandler.
  unfold plain_config in Hplain.
  apply andb_prop in Hplain as [Hplain Hr].
  apply andb_prop in Hplain as [Hplain Hl].
  apply andb_prop in Hplain as [Hplain Hh].
  apply andb_prop in Hplain as [Hfi Hfo].
  unfold configure. rewrite Henc.
  unfold mbind, Completion_bind. cbn [bind].
  rewrite contains_picologging_str_of_bytes.
  unfold asdict, mbind, Completion_bind, mret, Completion_ret.
  rewrite (asdict_items_plain copy_object _ Hfo), (asdict_items_plain copy_object _ Hh),
    (asdict_items_plain copy_object _ Hl), (asdict_items_plain copy_object _ Hr).
  unfold import_picologging.
  destruct (filters self) as [d |];
    [rewrite (asdict_items_plain copy_object _ Hfi) |];
    (destruct (exception_logging_handler self) as [h |]; [rewrite Hhandler |]);
    (destruct (contains "picologging" encoded);
     [destruct (has_picologging env); [| discriminate Himport] |]);
    destruct (configure_root_logger self); reflexivity.
Qed.

(** Up to its call of [dictConfig], [configure] raises in three ways only:
    with the exception of the encoder; with [MissingDependencyException]
    when the word is in the encoding and picologging cannot be imported;
    or, once the backend is imported, with the exception of copying an
    object the configuration holds.  Popping [root] never fails. *)
Theorem configure_exception_origin (env : Env) (self : t) (e : PyException) :
  configure encode_json copy_object env self = Raised e ->
  encode_json (VDict (handlers self)) = Raised e \/
  (exists encoded,
     encode_json (VDict (handlers self)) = Normal encoded /\
     contains "picologging" encoded = true /\
     has_picologging env = false /\
     e = MissingDependencyException "picologging") \/
  (exists encoded object,
     encode_json (VDict (handlers self)) = Normal encoded /\
     contains "picologging" encoded && negb (has_picologging env) = false /\
     asdict copy_object self = Raised e /\
     copy_object object = Raised e).
Proof.
  intros Hr.
  destruct (encode_json (VDict (handlers self))) as [encoded | e'] eqn:Henc;
    [| left; rewrite (configure_encoder_failure encode_json copy_object env self e' Henc)
         in Hr; congruence].
  right.
  destruct (asdict copy_object self) as [fields | e'] eqn:Hfields.
  - left. exists encoded. split; [reflexivity |].
    destruct (configure_outcome encode_json copy_object env self encoded fields
                Henc Hfields) as (values & _ & _ & _ & Hc & _).
    rewrite contains_picologging_str_of_bytes, Hr in Hc.
    destruct (contains "picologging" encoded); [| discriminate Hc].
    destruct (has_picologging env); [discriminate Hc |].
    repeat split. congruence.
  - pose proof (configure_asdict_failure encode_json copy_object env self encoded e'
                  Henc Hfields) as Hc.
    rewrite contains_picologging_str_of_bytes, Hr in Hc.
    destruct (contains "picologging" encoded) eqn:Hword;
      [destruct (has_picologging env) eqn:Hpico |].
    + right. injection Hc as ->.
      destruct (asdict_raises copy_object self e' Hfields) as [object Hobject].
      exists encoded, object.
      repeat split; rewrite ?Hword; solve [reflexivity | assumption].
    + left. exists encoded. repeat split; congruence.
    + right. injection Hc as ->.
      destruct (asdict_raises copy_object self e' Hfields) as [object Hobject].
      exists encoded, object.
      repeat split; rewrite ?Hword; solve [reflexivity | assumption].
Qed.

End ConfigureMapping.

Lemma configure_values_exact_witness :
  exists values,
    LoggingConfig.configure Json.encode copy_equal full_env
      (LoggingConfig.__init__ full_env LoggingConfig.no_args)
    = Normal (HighPerformance, values) /\
    List.map fst values
    = [ "version"; "disable_existing_loggers"; "propagate"; "formatters"; "handlers";
        "loggers"; "root"; "log_exceptions"; "traceback_line_limit" ].
Proof.
  eexists. split.
  - etransitivity.
    + eapply (configure_values_exact Json.encode copy_equal full_env
                (LoggingConfig.__init__ full_env LoggingConfig.no_args));
        [vm_compute; reflexivity | vm_compute; reflexivity | reflexivity | exact I].
    + vm_compute. reflexivity.
  - reflexivity.
Defined.

Lemma configure_exception_origin_witness :
  Json.encode (VDict (LoggingConfig.handlers (LoggingConfig.__init__ full_env never_with_handler_args)))
  = Raised (OtherException "TypeError") \/
  (exists encoded,
     Json.encode (VDict (LoggingConfig.handlers (LoggingConfig.__init__ full_env never_with_handler_args)))
     = Normal encoded /\
     contains "picologging" encoded = true /\
     has_picologging full_env = false /\
     OtherException "TypeError" = MissingDependencyException "picologging") \/
  (exists encoded object,
     Json.encode (VDict (LoggingConfig.handlers (LoggingConfig.__init__ full_env never_with_handler_args)))
     = Normal encoded /\
     contains "picologging" encoded && negb (has_picologging full_env) = false /\
     LoggingConfig.asdict copy_refused (LoggingConfig.__init__ full_env never_with_handler_args)
     = Raised (OtherException "TypeError") /\
     copy_refused object = Raised (OtherException "TypeError")).
Proof.
  apply (configure_exception_origin Json.encode copy_refused full_env
           (LoggingConfig.__init__ full_env never_with_handler_args)
           (OtherException "TypeError")).
  vm_compute. reflexivity.
Defined.

(** Out of the box the backend follows the installation: a configuration
    built without explicit handlers takes the default table of the backend
    that is installed, and [configure] neither fails to encode it nor
    misses picologging; it goes on to [dictConfig] of picologging when it
    is installed and of the standard library when it is not, unless a
    field cannot be copied. *)
Theorem default_handlers_select_installed_backend
    (copy_object : value -> Completion value) (env : Env) (a : LoggingConfig.args) :
  LoggingConfig.arg_handlers a = None ->
  exists self,
    LoggingConfig.new env a = Normal self /\
    LoggingConfig.handlers self = _get_default_handlers env /\
    match LoggingConfig.asdict copy_object self with
    | Normal _ =>
        exists values,
          LoggingConfig.configure Json.encode copy_object env self
          = Normal (if has_picologging env then HighPerformance else Standard, values)
    | Raised e => LoggingConfig.configure Json.encode copy_object env self = Raised e
    end.
Proof.
  intros Hah. unfold LoggingConfig.new.
  destruct (LoggingConfigFacts.post_init_spec env (LoggingConfig.__init__ env a))
    as (self & Hpost & _ & _ & Hkeep & _).
  assert (Hhandlers : LoggingConfig.handlers self = _get_default_handlers env).
  { rewrite Hkeep; cbn [LoggingConfig.__init__ LoggingConfig.handlers]; rewrite Hah;
      [reflexivity | apply default_handlers_have_queue_listener]. }
  destruct (default_handlers_encoding env) as (encoded & Henc & Hword).
  rewrite <- Hhandlers in Henc.
  exists self. split; [exact Hpost |]. split; [exact Hhandlers |].
  destruct (LoggingConfig.asdict copy_object self) as [fields | e] eqn:Hfields.
  - destruct (configure_outcome Json.encode copy_object env self encoded fields
                Henc Hfields) as (values & _ & _ & _ & Hc & _).
    rewrite contains_picologging_str_of_bytes, Hword in Hc.
    exists values. rewrite Hc. destruct (has_picologging env); reflexivity.
  - rewrite (configure_asdict_failure Json.encode copy_object env self encoded e
               Henc Hfields).
    rewrite contains_picologging_str_of_bytes, Hword.
    destruct (has_picologging env); reflexivity.
Qed.

Lemma default_handlers_select_installed_backend_witness :
  exists self,
    LoggingConfig.new bare_env never_args = Normal self /\
    LoggingConfig.handlers self = _get_default_handlers bare_env /\
    match LoggingConfig.asdict copy_equal self with
    | Normal _ =>
        exists values,
          LoggingConfig.configure Json.encode copy_equal bare_env self
          = Normal (Standard, values)
    | Raised e => LoggingConfig.configure Json.encode copy_equal bare_env self = Raised e
    end.
Proof.
  apply (default_handlers_select_installed_backend copy_equal bare_env never_args).
  reflexivity.
Defined.

(** ** The event filter, for any list of keys *)

Section EventFilterGeneral.

Context {WrappedLogger : Type}.
Implicit Types (filter_keys : list string) (event_dict : gmap string value).

(** For any list of keys the filter removes exactly the listed keys: a
    listed key is gone, every other entry is as it was, and the keys of the
    result are the keys of the event that are not listed. *)
Theorem event_filter_removes_exactly filter_keys (logger : WrappedLogger) name event_dict :
  (forall k : string,
     StructlogEventFilter_call filter_keys logger name event_dict !! k
     = if bool_decide (k ∈ filter_keys) then None else event_dict !! k) /\
  dom (StructlogEventFilter_call filter_keys logger name event_dict)
  = dom event_dict ∖ list_to_set filter_keys.
Proof.
  split; [intros k; apply event_filter_lookup |].
  apply set_eq. intros k.
  rewrite elem_of_difference, !elem_of_dom, event_filter_lookup, elem_of_list_to_set.
  case_bool_decide as Hin.
  - split; [intros [? ?]; discriminate | intros [_ Hn]; contradiction].
  - split; [intros Hk; split; assumption | intros [Hk _]; exact Hk].
Qed.

(** A listed key that the event does not have is passed over: when none of
    the listed keys is there, the event comes back as it was. *)
Theorem event_filter_absent_keys filter_keys (logger : WrappedLogger) name event_dict :
  (forall k, k ∈ filter_keys -> event_dict !! k = None) ->
  StructlogEventFilter_call filter_keys logger name event_dict = event_dict.
Proof.
  intros Habsent. apply map_eq. intros k. rewrite event_filter_lookup.
  case_bool_decide as Hin; [| reflexivity].
  symmetry. apply Habsent. exact Hin.
Qed.

(** Two filters in a row act as one filter with both key lists, in either
    order. *)
Theorem event_filter_compose keys1 keys2 (logger : WrappedLogger) name event_dict :
  StructlogEventFilter_call keys2 logger name
    (StructlogEventFilter_call keys1 logger name event_dict)
  = StructlogEventFilter_call (keys1 ++ keys2)%list logger name event_dict /\
  StructlogEventFilter_call keys2 logger name
    (StructlogEventFilter_call keys1 logger name event_dict)
  = StructlogEventFilter_call keys1 logger name
      (StructlogEventFilter_call keys2 logger name event_dict).
Proof.
  split.
  - unfold StructlogEventFilter_call. rewrite foldl_app. reflexivity.
  - apply map_eq. intros k. rewrite !event_filter_lookup.
    repeat case_bool_decide; reflexivity.
Qed.

End EventFilterGeneral.

Lemma event_filter_absent_keys_witness :
  StructlogEventFilter_call ["color_message"] tt "info" (<["event" := VStr "y"]> ∅)
  = <["event" := VStr "y"]> ∅.
Proof.
  apply (event_filter_absent_keys ["color_message"] tt "info" (<["event" := VStr "y"]> ∅)).
  intros k Hk. apply list_elem_of_singleton in Hk. subst k.
  rewrite lookup_insert_ne by discriminate. apply lookup_empty.
Defined.

(** ** Processor pipelines: where the renderer stands *)

(** With structlog, each default pipeline is a sequence of steps that are
    no renderers followed by exactly one renderer, the JSON renderer when
    [as_json] holds and the console renderer when it does not; in the
    bridge pipeline the [color_message] filter and the removal of the
    formatter's bookkeeping stand directly before the renderer, in that
    order.  Without structlog both pipelines are empty. *)
Theorem default_pipelines_render_once (env : Env) (as_json : bool) :
  let is_renderer p := is_json_renderer p || is_console_renderer p in
  let native := default_structlog_processors env as_json in
  let bridge := default_structlog_standard_lib_processors env as_json in
  if has_structlog env then
    exists before renderer before' renderer',
      native = (before ++ [renderer])%list /\
      forallb (fun p => negb (is_renderer p)) before = true /\
      is_json_renderer renderer = as_json /\
      is_console_renderer renderer = negb as_json /\
      bridge = (before' ++ [StructlogEventFilter ["color_message"];
                            remove_processors_meta; renderer'])%list /\
      forallb (fun p => negb (is_renderer p)) before' = true /\
      is_json_renderer renderer' = as_json /\
      is_console_renderer renderer' = negb as_json
  else native = [] /\ bridge = [].
Proof.
  unfold default_structlog_processors, default_structlog_standard_lib_processors.
  destruct (has_structlog env); [| split; reflexivity].
  destruct as_json; cbn.
  - exists [merge_contextvars; add_log_level; format_exc_info; TimeStamper "iso"],
      (JSONRenderer default_json_serializer),
      [TimeStamper "iso"; stdlib_add_log_level; ExtraAdder],
      (JSONRenderer stdlib_json_serializer).
    repeat split; reflexivity.
  - exists [merge_contextvars; add_log_level; TimeStamper "iso"],
      (ConsoleRenderer true (mkRichTracebackFormatter 1 false 80)),
      [TimeStamper "iso"; stdlib_add_log_level; ExtraAdder],
      (ConsoleRenderer true (mkRichTracebackFormatter 1 false 80)).
    repeat split; reflexivity.
Qed.

(** ** StructLoggingConfig: what construction resolves *)

Section StructConstruction.
Import StructLoggingConfig.

(** After construction the pipeline and the wrapped configuration are
    never [None].  A pipeline or a logger factory that was supplied is kept;
    a missing pipeline and logger factory come from the default builders,
    both with
    [as_json = not sys.stderr.isatty() and pretty_print_tty], so the logger
    factory stays [None] only without structlog; a wrapped configuration
    that is built has its [queue_listener] handler and [litestar] logger,
    and with structlog its formatters are the bridge formatter for the same
    [as_json]. *)
Theorem struct_post_init_resolves (env : Env) (self : t) :
  let as_json := negb (stderr_isatty env) && pretty_print_tty self in
  exists self' config,
    __post_init__ env self = Normal self' /\
    processors self'
      = Some (default (default_structlog_processors env as_json) (processors self)) /\
    logger_factory self'
      = match logger_factory self with
        | Some factory => Some factory
        | None => default_logger_factory env as_json
        end /\
    standard_lib_logging_config self' = Some config /\
    (is_none (standard_lib_logging_config self) = true ->
     dict_has "queue_listener" (LoggingConfig.handlers config) = true /\
     dict_has "litestar" (LoggingConfig.loggers config) = true /\
     LoggingConfig.formatters config
     = if has_structlog env then bridge_formatters env as_json
       else LoggingConfig.default_formatters) /\
    wrapper_class self' = wrapper_class self /\
    context_class self' = context_class self /\
    cache_logger_on_first_use self' = cache_logger_on_first_use self /\
    pretty_print_tty self' = pretty_print_tty self.
Proof.
  intros as_json. subst as_json. unfold __post_init__.
  set (bridge_args :=
         LoggingConfig.mk_args None None None None None
           (Some (bridge_formatters env (negb (stderr_isatty env) && pretty_print_tty self)))
           None None None None None None None).
  destruct (LoggingConfigFacts.post_init_spec env (LoggingConfig.__init__ env bridge_args))
    as (bridged & Hbridged & Hbq & Hbl & _ & _ & _ & _ & _ & _ & Hbf & _).
  destruct (LoggingConfigFacts.post_init_spec env
              (LoggingConfig.__init__ env LoggingConfig.no_args))
    as (plain & Hplain & Hpq & Hpl & _ & _ & _ & _ & _ & _ & Hpf & _).
  unfold LoggingConfig.new. rewrite Hplain.
  destruct (has_structlog env) eqn:Hs.
  - destruct (standard_lib_logging_config self) as [supplied |] eqn:Hstd.
    + exists
        {| processors :=
             if is_none (processors self)
             then Some (default_structlog_processors env
                          (negb (stderr_isatty env) && pretty_print_tty self))
             else processors self;
           standard_lib_logging_config := Some supplied;
           wrapper_class := wrapper_class self;
           context_class := context_class self;
           logger_factory :=
             if is_none (logger_factory self)
             then default_logger_factory env
                    (negb (stderr_isatty env) && pretty_print_tty self)
             else logger_factory self;
           cache_logger_on_first_use := cache_logger_on_first_use self;
           log_exceptions := log_exceptions self;
           traceback_line_limit := traceback_line_limit self;
           exception_logging_handler :=
             if negb (is_never (log_exceptions self)) &&
                is_none (exception_logging_handler self)
             then Some (_default_exception_logging_handler_factory true
                          (traceback_line_limit self))
             else exception_logging_handler self;
           pretty_print_tty := pretty_print_tty self |}, supplied.
      cbn. split; [reflexivity |].
      destruct (processors self), (logger_factory self); repeat split; discriminate.
    + cbn [is_none]. rewrite Hbridged. cbn. eexists. exists bridged.
      split; [reflexivity |]. cbn.
      destruct (processors self), (logger_factory self); repeat split; assumption.
  - cbn. eexists. exists plain. split; [reflexivity |]. cbn.
    destruct (processors self), (logger_factory self); repeat split; assumption.
Qed.

Lemma struct_post_init_resolves_witness :
  exists self' config,
    __post_init__ full_env (struct_init None debug None) = Normal self' /\
    standard_lib_logging_config self' = Some config /\
    dict_has "queue_listener" (LoggingConfig.handlers config) = true.
Proof.
  destruct (struct_post_init_resolves full_env (struct_init None debug None))
    as (self' & config & Hpost & _ & _ & Hstd & Hbuilt & _).
  destruct (Hbuilt eq_refl) as (Hq & _).
  exists self', config. repeat split; assumption.
Defined.

(** Running the defaulting of a [StructLoggingConfig] a second time changes
    nothing. *)
Theorem struct_post_init_idempotent (env : Env) (self : t) :
  exists self',
    __post_init__ env self = Normal self' /\
    __post_init__ env self' = Normal self'.
Proof.
  unfold __post_init__ at 1.
  set (bridge_args :=
         LoggingConfig.mk_args None None None None None
           (Some (bridge_formatters env (negb (stderr_isatty env) && pretty_print_tty self)))
           None None None None None None None).
  destruct (logging_config_new_returns env bridge_args) as [bridged Hbridged].
  destruct (logging_config_new_returns env LoggingConfig.no_args) as [plain Hplain].
  destruct (has_structlog env) eqn:Hs.
  - destruct (standard_lib_logging_config self) as [supplied |] eqn:Hstd;
      cbn [is_none]; rewrite ?Hbridged; cbn; eexists; (split; [reflexivity |]);
      unfold __post_init__; cbn; rewrite Hs; cbn;
      destruct (processors self), (logger_factory self),
               (is_never (log_exceptions self)), (exception_logging_handler self);
      cbn; unfold default_logger_factory; rewrite ?Hs;
      destruct (negb (stderr_isatty env) && pretty_print_tty self); reflexivity.
  - rewrite Hplain. cbn. eexists. split; [reflexivity |].
    unfold __post_init__. cbn. rewrite Hs, Hplain. cbn.
    destruct (processors self), (logger_factory self),
             (is_never (log_exceptions self)), (exception_logging_handler self);
      cbn; unfold default_logger_factory; rewrite ?Hs;
      destruct (negb (stderr_isatty env) && pretty_print_tty self); reflexivity.
Qed.

End StructConstruction.

(** ** StructLoggingConfig: what [configure] passes on *)

Section StructConfigure.
Import StructLoggingConfig.

Variable copy_object : value -> Completion value.
Variable copy_factory : LoggerFactory -> Completion value.

(** Without structlog [configure] raises [MissingDependencyException]
    before anything is copied.  With it, every field is copied first, the
    five that are dropped afterwards included, and an exception of a copy
    ends [configure]; otherwise the keyword arguments are the copies of the
    five settings of structlog, in this order, a [None] among them passed
    on as [None]. *)
Theorem struct_configure_kwargs (env : Env) (self : t) :
  if has_structlog env then
    match asdict copy_object copy_factory self with
    | Normal fields =>
        exists processors' context_class' logger_factory',
          configure copy_object copy_factory env self
          = Normal [ ("processors", processors');
                     ("wrapper_class",
                      match wrapper_class self with Some c => VClass c | None => VNone end);
                     ("context_class", context_class');
                     ("logger_factory", logger_factory');
                     ("cache_logger_on_first_use", VBool (cache_logger_on_first_use self)) ] /\
          dict_get "processors" fields = Some processors' /\
          dict_get "context_class" fields = Some context_class' /\
          dict_get "logger_factory" fields = Some logger_factory' /\
          match processors self with
          | Some pipeline =>
              _asdict_inner copy_object (VList (List.map VProcessor pipeline))
              = Normal processors'
          | None => processors' = VNone
          end /\
          match context_class self with
          | Some d =>
              exists d', asdict_items copy_object d = Normal d' /\ context_class' = VDict d'
          | None => context_class' = VNone
          end /\
          match logger_factory self with
          | Some factory => copy_factory factory = Normal logger_factory'
          | None => logger_factory' = VNone
          end
    | Raised e => configure copy_object copy_factory env self = Raised e
    end
  else
    configure copy_object copy_factory env self
    = Raised (MissingDependencyException "structlog").
Proof.
  unfold configure, import_structlog.
  destruct (has_structlog env); [| reflexivity].
  unfold mbind, Completion_bind. cbn [bind].
  destruct (asdict copy_object copy_factory self) as [fields | e] eqn:Hfields;
    [| reflexivity].
  cbn [bind]. revert Hfields.
  unfold asdict, mbind, Completion_bind, mret, Completion_ret. intros Hfields.
  apply bind_normal in Hfields as (processors' & Hp & Hfields).
  apply bind_normal in Hfields as (config' & _ & Hfields).
  apply bind_normal in Hfields as (context_class' & Hc & Hfields).
  apply bind_normal in Hfields as (logger_factory' & Hf & Hfields).
  apply bind_normal in Hfields as (handler' & _ & Hfields).
  injection Hfields as <-.
  exists processors', context_class', logger_factory'.
  split; [reflexivity |]. repeat split.
  - destruct (processors self); [exact Hp | congruence].
  - destruct (context_class self) as [d |]; [| congruence].
    apply bind_normal in Hc as (d' & Hd & Hc). exists d'. split; [exact Hd | congruence].
  - destruct (logger_factory self); [exact Hf | congruence].
Qed.

(** The copy that fails need not be of a setting structlog is given: with
    structlog installed, a wrapped [LoggingConfig] holding an object that
    cannot be copied makes [configure] raise, although the wrapped
    configuration is dropped from the keyword arguments. *)
Theorem struct_configure_copies_dropped_fields
    (env : Env) (self : t) (config : LoggingConfig.t) (e : PyException) :
  has_structlog env = true ->
  standard_lib_logging_config self = Some config ->
  returns (match processors self with
           | Some pipeline =>
               _asdict_inner copy_object (VList (List.map VProcessor pipeline))
           | None => Normal VNone
           end) = true ->
  LoggingConfig.asdict copy_object config = Raised e ->
  configure copy_object copy_factory env self = Raised e.
Proof.
  intros Hs Hconfig Hp He.
  unfold configure, import_structlog. rewrite Hs.
  unfold asdict, mbind, Completion_bind, mret, Completion_ret. cbn [bind].
  destruct (match processors self with
            | Some pipeline =>
                _asdict_inner copy_object (VList (List.map VProcessor pipeline))
            | None => Normal VNone
            end); [| discriminate Hp].
  cbn [bind]. rewrite Hconfig, He. reflexivity.
Qed.

End StructConfigure.

Lemma struct_configure_copies_dropped_fields_witness :
  exists config,
    LoggingConfig.new full_env LoggingConfig.no_args = Normal config /\
    StructLoggingConfig.configure copy_refused (fun _ => Normal VNone) full_env
      (struct_init (Some config) never None)
    = Raised (OtherException "TypeError").
Proof.
  eexists. split; [reflexivity |].
  eapply (struct_configure_copies_dropped_fields copy_refused (fun _ => Normal VNone)
            full_env (struct_init (Some _) never None));
    [reflexivity | reflexivity | reflexivity | vm_compute; reflexivity].
Defined.


(** ** LoggingConfig: the queue listener that construction inserts *)

Section InsertedQueueListener.
Import LoggingConfig.

(** When the supplied handlers have no [queue_listener], the entry put in
    is the one of the installed backend, it names the formatter
    [standard], and construction does not touch the formatters: whether
    that formatter exists is left to what was supplied. *)
Theorem inserted_queue_listener (env : Env) (self : t) :
  dict_has "queue_listener" (handlers self) = false ->
  exists self' entry,
    __post_init__ env self = Normal self' /\
    dict_get "queue_listener" (handlers self') = Some (VDict entry) /\
    dict_get "class" entry
      = Some (VStr (if has_picologging env
                    then "litestar.logging.picologging.QueueListenerHandler"
                    else "litestar.logging.standard.QueueListenerHandler")) /\
    dict_get "formatter" entry = Some (VStr "standard") /\
    dict_has "standard" (formatters self') = dict_has "standard" (formatters self).
Proof.
  intros Hmissing. unfold __post_init__. rewrite Hmissing.
  unfold _get_default_handlers, default_handlers.
  destruct (has_picologging env); [| destruct (python_ge_3_12 env)];
    cbn; eexists; eexists; (split; [reflexivity |]); cbn;
    (split; [apply dict_get_setitem |]); repeat split; reflexivity.
Qed.

Lemma inserted_queue_listener_witness :
  exists self' entry,
    __post_init__ full_env
      (__init__ full_env
         (mk_args None None None None None None (Some []) None None None None None None))
    = Normal self' /\
    dict_get "queue_listener" (handlers self') = Some (VDict entry) /\
    dict_get "class" entry
      = Some (VStr "litestar.logging.picologging.QueueListenerHandler").
Proof.
  destruct (inserted_queue_listener full_env
              (__init__ full_env
                 (mk_args None None None None None None (Some []) None None None None
                    None None)) eq_refl)
    as (self' & entry & Hpost & Hq & Hclass & _).
  exists self', entry. repeat split; assumption.
Defined.

End InsertedQueueListener.

(** ** The model encoder and the inserted queue listener *)

Lemma encode_dict (d : list (string * value)) :
  Json.encode (VDict d)
  = match encode_entries d with
    | Normal ss => Normal ("{" +:+ join "," ss +:+ "}")
    | Raised e => Raised e
    end.
Proof. reflexivity. Qed.

Lemma dict_setitem_fresh_app {V} (k : string) (v : V) (d : dict V) :
  dict_has k d = false -> dict_setitem k v d = (d ++ [(k, v)])%list.
Proof.
  unfold dict_has, dict_get. induction d as [| [k0 v0] d IH]; cbn; [reflexivity |].
  destruct (String.eqb k0 k); [discriminate |].
  intros Hd. rewrite IH by exact Hd. reflexivity.
Qed.

Lemma encode_entries_snoc (d : list (string * value)) (k : string) (v : value)
    (ss : list string) (s : string) :
  encode_entries d = Normal ss ->
  Json.encode v = Normal s ->
  encode_entries (d ++ [(k, v)])
  = Normal (ss ++ [Json.quoted k +:+ ":" +:+ s])%list.
Proof.
  revert ss. induction d as [| [k0 v0] d IH]; intros ss Hd Hv.
  - cbn in Hd. injection Hd as <-. cbn. rewrite Hv. reflexivity.
  - cbn in Hd |- *.
    destruct (Json.encode v0) as [s0 |]; [| discriminate Hd].
    destruct (encode_entries d) as [ss0 |] eqn:Hss0; [| discriminate Hd].
    injection Hd as <-. rewrite (IH ss0 eq_refl Hv). reflexivity.
Qed.

Lemma string_append_assoc (a b c : string) : (a +:+ b) +:+ c = a +:+ (b +:+ c).
Proof. induction a as [| x a IH]; [reflexivity |]. rewrite !append_cons, IH. reflexivity. Qed.

Lemma contains_append_r (w a b : string) :
  contains w b = true -> contains w (a +:+ b) = true.
Proof.
  rewrite !contains_spec. intros (before & after & ->).
  exists (a +:+ before), after. rewrite string_append_assoc. reflexivity.
Qed.

Lemma contains_append_l (w a b : string) :
  contains w a = true -> contains w (a +:+ b) = true.
Proof.
  rewrite !contains_spec. intros (before & after & ->).
  exists before, (after +:+ b). rewrite !string_append_assoc. reflexivity.
Qed.

Lemma contains_join_last (w sep : string) (ss : list string) (s : string) :
  contains w s = true -> contains w (join sep (ss ++ [s])%list) = true.
Proof.
  intros Hs. unfold join. induction ss as [| x ss IH]; [exact Hs |].
  cbn [app String.concat].
  destruct (ss ++ [s])%list eqn:E; [destruct ss; discriminate E |].
  apply contains_append_r, contains_append_r. exact IH.
Qed.

Section ForcedBackend.
Import LoggingConfig.

Lemma post_init_inserts (env : Env) (self : t) :
  dict_has "queue_listener" (handlers self) = false ->
  exists self' entry,
    __post_init__ env self = Normal self' /\
    dict_getitem "queue_listener" (_get_default_handlers env) = Normal entry /\
    handlers self' = dict_setitem "queue_listener" entry (handlers self).
Proof.
  intros Hmissing. unfold __post_init__. rewrite Hmissing.
  destruct (default_queue_listener env) as [entry Hentry]. rewrite Hentry.
  cbn. eexists. exists entry. repeat split; reflexivity.
Qed.

(** With picologging installed, handlers supplied without a
    [queue_listener] always take the picologging branch of [configure],
    whatever classes they name themselves: construction inserts the
    picologging queue listener, whose class name carries the word
    [configure] looks for; [configure] goes on to [dictConfig] of
    picologging unless a field cannot be copied.  (The handlers must be
    JSON data; the encoder is [Json.encode].) *)
Theorem inserted_queue_listener_selects_picologging
    (copy_object : value -> Completion value) (env : Env) (self : t) (encoded : string) :
  has_picologging env = true ->
  dict_has "queue_listener" (handlers self) = false ->
  Json.encode (VDict (handlers self)) = Normal encoded ->
  exists self',
    __post_init__ env self = Normal self' /\
    (forall k, k <> "queue_listener" ->
               dict_get k (handlers self') = dict_get k (handlers self)) /\
    match asdict copy_object self' with
    | Normal _ =>
        exists values,
          configure Json.encode copy_object env self' = Normal (HighPerformance, values)
    | Raised e => configure Json.encode copy_object env self' = Raised e
    end.
Proof.
  intros Hpico Hmissing Henc.
  rewrite encode_dict in Henc.
  destruct (encode_entries (handlers self)) as [ss |] eqn:Hss; [| discriminate Henc].
  destruct (post_init_inserts env self Hmissing) as (self' & entry & Hpost & Hentry & Hh).
  unfold _get_default_handlers in Hentry. rewrite Hpico in Hentry.
  cbn in Hentry. injection Hentry as <-.
  exists self'. split; [exact Hpost |]. split.
  { intros k Hk. rewrite Hh. apply dict_get_setitem_ne. exact Hk. }
  assert (Henc' :
            Json.encode (VDict (handlers self'))
            = Normal
                ("{" +:+ join ","
                   (ss ++ [Json.quoted "queue_listener" +:+ ":" +:+
                           "{" +:+ join ","
                             [ Json.quoted "class" +:+ ":" +:+
                                 Json.quoted
                                   "litestar.logging.picologging.QueueListenerHandler";
                               Json.quoted "level" +:+ ":" +:+ Json.quoted "DEBUG";
                               Json.quoted "formatter" +:+ ":" +:+
                                 Json.quoted "standard" ]
                             +:+ "}"])%list
                   +:+ "}")).
  { rewrite Hh, (dict_setitem_fresh_app _ _ _ Hmissing), encode_dict.
    erewrite encode_entries_snoc; [reflexivity | exact Hss | reflexivity]. }
  assert (Hword : contains "picologging"
                    ("{" +:+ join ","
                       (ss ++ [Json.quoted "queue_listener" +:+ ":" +:+
                               "{" +:+ join ","
                                 [ Json.quoted "class" +:+ ":" +:+
                                     Json.quoted
                                       "litestar.logging.picologging.QueueListenerHandler";
                                   Json.quoted "level" +:+ ":" +:+ Json.quoted "DEBUG";
                                   Json.quoted "formatter" +:+ ":" +:+
                                     Json.quoted "standard" ]
                                 +:+ "}"])%list
                       +:+ "}") = true).
  { apply contains_append_r, contains_append_l, contains_join_last.
    apply contains_append_r, contains_append_r. vm_compute. reflexivity. }
  destruct (asdict copy_object self') as [fields | e] eqn:Hfields.
  - destruct (configure_outcome Json.encode copy_object env self' _ fields Henc' Hfields)
      as (values & _ & _ & _ & Hc & _).
    rewrite contains_picologging_str_of_bytes, Hword, Hpico in Hc.
    exists values. exact Hc.
  - rewrite (configure_asdict_failure Json.encode copy_object env self' _ e Henc' Hfields).
    rewrite contains_picologging_str_of_bytes, Hword, Hpico. reflexivity.
Qed.

End ForcedBackend.

Lemma inserted_queue_listener_selects_picologging_witness :
  exists self',
    LoggingConfig.__post_init__ full_env (LoggingConfig.__init__ full_env console_only_args)
    = Normal self' /\
    (forall k, k <> "queue_listener" ->
               dict_get k (LoggingConfig.handlers self')
               = dict_get k
                   (LoggingConfig.handlers
                      (LoggingConfig.__init__ full_env console_only_args))) /\
    match LoggingConfig.asdict copy_equal self' with
    | Normal _ =>
        exists values,
          LoggingConfig.configure Json.encode copy_equal full_env self'
          = Normal (HighPerformance, values)
    | Raised e => LoggingConfig.configure Json.encode copy_equal full_env self' = Raised e
    end.
Proof.
  eapply (inserted_queue_listener_selects_picologging copy_equal full_env
            (LoggingConfig.__init__ full_env console_only_args));
    [reflexivity | reflexivity | vm_compute; reflexivity].
Defined.
